(** * StaticAnalysis: the report builder of [src/run_static_analysis.py]

    A shallow embedding of the Python module that turns the output of
    cppcheck and clang-tidy into one pull-request comment, followed by the
    properties of its natural-language specification.

    Conventions of the embedding:
    - a Python [str] is a [string]; [len] is [String.length] (the two agree
      on ASCII text, one character per byte);
    - a Python [int] is a [Z];
    - a raised exception is the left injection of a sum, and the functions
      that touch the module-level globals of [sa_utils] thread them through
      explicitly (the monad [M] below);
    - the helpers of [sa_utils] are not part of the analysed sources; the
      pure ones are the fields of the class [SaUtils], and the budget test,
      which reads a global, is modelled from the specification. *)

From Stdlib Require Import ZArith Lia Ascii DecimalString.
From stdpp Require Import base decidable option list gmap strings.

Local Open Scope Z_scope.

(** ** Python built-ins used by the module *)

Module Py.

(** Exceptions that the analysed functions can raise. *)
Inductive exn : Type :=
| ValueError          (* str.index without a match, int() on a non-number *)
| KeyError            (* dict lookup of an absent key *)
| IndexError          (* list index out of range *)
| FileNotFoundError   (* open() of a path that does not exist *)
| OSError.            (* any other failure of open() *)

Definition len (s : string) : Z := Z.of_nat (String.length s).

(** [s.startswith(p)] *)
Definition startswith (s p : string) : bool := String.prefix p s.

(** [s[n:]] and [s[:n]] for a non-negative [n] *)
Fixpoint drop (n : nat) (s : string) : string :=
  match n, s with
  | O, _ => s
  | S _, "" => ""
  | S k, String _ s' => drop k s'
  end.

Fixpoint take (n : nat) (s : string) : string :=
  match n, s with
  | O, _ => ""
  | S _, "" => ""
  | S k, String c s' => String c (take k s')
  end.

(** [s[:-1]]: everything but the last character *)
Fixpoint drop_last (s : string) : string :=
  match s with
  | "" => ""
  | String c "" => ""
  | String c s' => String c (drop_last s')
  end.

(** [s.index(c)] for a one-character needle: position of the first
    occurrence, [ValueError] when there is none. *)
Fixpoint find (c : ascii) (s : string) : option nat :=
  match s with
  | "" => None
  | String d s' => if Ascii.eqb c d then Some O else S <$> find c s'
  end.

Definition index (c : ascii) (s : string) : exn + nat :=
  match find c s with
  | Some i => inr i
  | None => inl ValueError
  end.

(** [s.lstrip(c)] for a one-character set *)
Fixpoint lstrip (c : ascii) (s : string) : string :=
  match s with
  | "" => ""
  | String d s' => if Ascii.eqb c d then lstrip c s' else s
  end.

(** [s.replace(old, "")]: every non-overlapping occurrence of [old],
    scanning from the left, is removed.  [skip] counts the characters of
    the occurrence being removed that are still to be passed over. *)
Fixpoint remove_go (old : string) (skip : nat) (s : string) : string :=
  match s with
  | "" => ""
  | String c s' =>
      match skip with
      | S k => remove_go old k s'
      | O =>
          if String.prefix old s
          then remove_go old (Nat.pred (String.length old)) s'
          else String c (remove_go old O s')
      end
  end.

Definition remove (old s : string) : string :=
  match old with
  | "" => s
  | _ => remove_go old O s
  end.

(** ["\n".join(l)] and friends *)
Definition join (sep : string) (l : list string) : string :=
  String.concat sep l.

(** ["".join(l)] *)
Definition concat (l : list string) : string := String.concat "" l.

(** [str(n)] for an integer *)
Definition str (n : Z) : string := NilZero.string_of_int (Z.to_int n).

(** [l[a:b]] on a list, with Python's treatment of negative and
    out-of-range bounds. *)
Definition clamp (n : nat) (i : Z) : nat :=
  if i <? 0 then Z.to_nat (Z.max 0 (i + Z.of_nat n))
  else Z.to_nat (Z.min i (Z.of_nat n)).

Definition slice {A : Type} (l : list A) (a b : Z) : list A :=
  let lo := clamp (length l) a in
  let hi := clamp (length l) b in
  List.firstn (hi - lo)%nat (List.skipn lo l).

(** [int(s)] on ASCII text: surrounding white space is ignored, one sign
    is allowed, and single underscores may separate digits. *)
Definition is_space (c : ascii) : bool :=
  let n := N_of_ascii c in
  ((9 <=? n) && (n <=? 13))%N || (n =? 32)%N
  || ((28 <=? n) && (n <=? 31))%N.

Definition digit (c : ascii) : option Z :=
  let n := Z.of_N (N_of_ascii c) in
  if (48 <=? n) && (n <=? 57) then Some (n - 48) else None.

Fixpoint lstrip_space (s : string) : string :=
  match s with
  | "" => ""
  | String c s' => if is_space c then lstrip_space s' else s
  end.

Definition strip (s : string) : string :=
  String.rev (lstrip_space (String.rev (lstrip_space s))).

(** [after_digit] tells whether the previous character was a digit, the
    only place where an underscore or the end of the text is allowed. *)
Fixpoint digits (acc : Z) (after_digit : bool) (s : string) : option Z :=
  match s with
  | "" => if after_digit then Some acc else None
  | String c s' =>
      match digit c with
      | Some d => digits (10 * acc + d) true s'
      | None =>
          if Ascii.eqb c "_" && after_digit then digits acc false s'
          else None
      end
  end.

Definition int (s : string) : exn + Z :=
  let body (t : string) : option Z := digits 0 false t in
  let r :=
    match strip s with
    | String "-" t => Z.opp <$> body t
    | String "+" t => body t
    | t => body t
    end in
  match r with
  | Some n => inr n
  | None => inl ValueError
  end.

End Py.

(** ** Configuration, globals and effects *)

(** Line feed and double quote, for the text the module builds. *)
Definition nl : string := String (ascii_of_nat 10) EmptyString.
Definition dq : string := String (ascii_of_nat 34) EmptyString.

(** The values the module reads from its environment and never changes
    during a run: the two repository names, the commit, and the constants
    of [sa_utils] that the analysed functions mention. *)
Record Config : Type := {
  REPO_NAME : string;
  TARGET_REPO_NAME : string;
  SHA : string;
  COMMENT_TITLE : string;
  COMMENT_MAX_SIZE : Z;
  MAX_CHAR_COUNT_REACHED : string;
}.

(** What [open(path)] followed by [readlines()] gives. *)
Inductive file : Type :=
| Readable (lines : list string)
| Missing                          (* FileNotFoundError *)
| Unopenable.                      (* any other OSError *)

(** The effects of the statements of the analysed module itself, kept as a
    trace (most recent first): [Opened path] for an [open(path)] that the
    module executes, [Printed text] for a [print(text)] of the module.
    What the helpers of [sa_utils] read or log inside their own code is
    not part of the trace. *)
Inductive event : Type :=
| Opened (path : string)
| Printed (text : string).

(** The mutable module-level state of [sa_utils] that the analysed
    functions read and write, and the trace of effects. *)
Record Globals : Type := {
  CURRENT_COMMENT_LENGTH : Z;
  FILES_WITH_ISSUES : gmap string (list string);
  trace : list event;
}.

Definition set_length (n : Z) (g : Globals) : Globals :=
  {| CURRENT_COMMENT_LENGTH := n;
     FILES_WITH_ISSUES := FILES_WITH_ISSUES g;
     trace := trace g |}.

Definition set_file (path : string) (lines : list string) (g : Globals) : Globals :=
  {| CURRENT_COMMENT_LENGTH := CURRENT_COMMENT_LENGTH g;
     FILES_WITH_ISSUES := <[path := lines]> (FILES_WITH_ISSUES g);
     trace := trace g |}.

Definition log (e : event) (g : Globals) : Globals :=
  {| CURRENT_COMMENT_LENGTH := CURRENT_COMMENT_LENGTH g;
     FILES_WITH_ISSUES := FILES_WITH_ISSUES g;
     trace := e :: trace g |}.

(** Computations that may raise and that act on the globals.  After a
    raise the globals are those at the point of the raise. *)
Definition M (A : Type) : Type := Globals -> (Py.exn + A) * Globals.

Definition ret {A : Type} (a : A) : M A := fun g => (inr a, g).
Definition raise {A : Type} (e : Py.exn) : M A := fun g => (inl e, g).
Definition bind {A B : Type} (m : M A) (k : A -> M B) : M B :=
  fun g => match m g with
           | (inr a, g') => k a g'
           | (inl e, g') => (inl e, g')
           end.
Definition get : M Globals := fun g => (inr g, g).
Definition modify (f : Globals -> Globals) : M unit := fun g => (inr tt, f g).
Definition lift {A : Type} (r : Py.exn + A) : M A := fun g => (r, g).

(** [try: body except FileNotFoundError: handler] *)
Definition except_FileNotFoundError (body handler : M unit) : M unit :=
  fun g => match body g with
           | (inl Py.FileNotFoundError, g') => handler g'
           | r => r
           end.

Notation "'let*' x ':=' m 'in' k" := (bind m (fun x => k))
  (at level 10, x pattern, m at level 100, k at level 200, only parsing).
Notation "m ';;' k" := (bind m (fun _ => k))
  (at level 100, k at level 200, right associativity, only parsing).
Notation "'let?' x ':=' r 'in' k" :=
  (match r with inl err => inl err | inr x => k end)
  (at level 10, x pattern, r at level 100, k at level 200, only parsing).

(** ** The helpers of [sa_utils]

    The analysed module calls these functions of [sa_utils]; their code is
    not among the analysed sources.  They are taken as pure functions of
    their arguments (and of the unchanging environment): they return
    without raising, they leave [CURRENT_COMMENT_LENGTH] and
    [FILES_WITH_ISSUES] alone, and the files they read and the warnings
    they log themselves (as [get_file_line_end] does) are outside the
    trace of the module. *)
Class SaUtils : Type := {
  (** [utils.is_excluded_dir(line)] *)
  is_excluded_dir : string -> bool;
  (** [utils.get_file_line_end(file_path, file_line_start)] *)
  get_file_line_end : string -> Z -> Z;
  (** [utils.is_part_of_pr_changes(file_path, line, files_changed_in_pr)] *)
  is_part_of_pr_changes : string -> Z -> gmap string (list (Z * Z)) -> bool;
  (** [utils.generate_description(is_note, was_note, file_line_start,
      issue_description, output_string)], which returns the possibly
      rewritten [output_string] and the description to render. *)
  generate_description : bool -> bool -> Z -> string -> string -> string * string;
}.

(** Modelled from the spec: [utils.check_for_char_limit], which is missing
    from the analysed sources.  The budget check computes the candidate new
    total length and fails when it would reach or exceed the configured
    maximum. *)
Definition check_for_char_limit (cfg : Config) (incoming_line : string)
    (g : Globals) : bool :=
  CURRENT_COMMENT_LENGTH g + Py.len incoming_line <? COMMENT_MAX_SIZE cfg.

(** ** The analysed functions *)

(** State of the loop of [create_comment_for_output]. *)
Record LoopState : Type := {
  list_of_issues : list string;
  per_issue_string : string;
  was_note : bool;
}.

(** Outcome of one iteration: go on with the next line, or leave the
    function with the entries finalized so far. *)
Inductive ctl : Type :=
| Continue (st : LoopState)
| Return (issues : list string).

Section Program.

Context (cfg : Config) (fs : string -> file) {U : SaUtils}.

(** [extract_info(line, prefix)] *)
Definition extract_info (line prefix : string)
    : Py.exn + (string * bool * Z * Z * string) :=
  (* Clean up line *)
  let line := Py.lstrip "/" (Py.remove prefix line) in
  (* Get the line starting position /path/to/file:line and trim it *)
  let? file_path_end_idx := Py.index ":" line in
  let file_path := Py.take file_path_end_idx line in
  (* Extract the lines information *)
  let line := Py.drop (S file_path_end_idx) line in
  (* Get line (start, end) *)
  let? colon := Py.index ":" line in
  let? file_line_start := Py.int (Py.take colon line) in
  let file_line_end := get_file_line_end file_path file_line_start in
  (* Get content of the issue *)
  let? space := Py.index " " line in
  let issue_description := Py.drop (S space) line in
  let is_note := Py.startswith issue_description "note:" in
  inr (file_path, is_note, file_line_start, file_line_end, issue_description).

(** [with open(file_path) as file: lines = file.readlines()] *)
Definition open_readlines (file_path : string) : M (list string) :=
  fun g =>
    match fs file_path with
    | Readable lines => (inr lines, log (Opened file_path) g)
    | Missing => (inl Py.FileNotFoundError, log (Opened file_path) g)
    | Unopenable => (inl Py.OSError, log (Opened file_path) g)
    end.

Definition print (text : string) : M unit := modify (log (Printed text)).

(** [utils.FILES_WITH_ISSUES[file_path]] *)
Definition cached (file_path : string) : M (list string) :=
  fun g =>
    match FILES_WITH_ISSUES g !! file_path with
    | Some lines => (inr lines, g)
    | None => (inl Py.KeyError, g)
    end.

(** [generate_output(is_note, file_path, file_line_start, file_line_end,
    description)].  The calls of [utils.debug_print] are left out. *)
Definition generate_output (is_note : bool) (file_path : string)
    (file_line_start file_line_end : Z) (description : string) : M string :=
  if negb is_note then
    if negb (String.eqb (TARGET_REPO_NAME cfg) (REPO_NAME cfg)) then
      (let* g := get in
       if negb (bool_decide (is_Some (FILES_WITH_ISSUES g !! file_path))) then
         except_FileNotFoundError
           (let* lines := open_readlines file_path in
            modify (set_file file_path lines))
           (print ("Error: The file '" +:+ file_path +:+ "' was not found."))
       else ret tt) ;;
      let* lines := cached file_path in
      let modified_content :=
        Py.slice lines (file_line_start - 1) (file_line_end - 1) in
      match modified_content with
      | [] => raise Py.IndexError
      | first :: rest =>
          let modified_content :=
            (Py.drop_last first +:+ " <---- HERE" +:+ nl) :: rest in
          let file_content := Py.concat modified_content in
          let file_url :=
            "https://github.com/" +:+ REPO_NAME cfg +:+ "/blob/" +:+ SHA cfg
            +:+ "/" +:+ file_path +:+ "#L" +:+ Py.str file_line_start in
          ret (nl +:+ nl +:+ "------"
               +:+ nl +:+ nl +:+ " <b><i>Issue found in file</b></i> ["
               +:+ REPO_NAME cfg +:+ "/" +:+ file_path +:+ "](" +:+ file_url
               +:+ ")" +:+ nl
               +:+ "```cpp" +:+ nl
               +:+ file_content
               +:+ nl +:+ "``` " +:+ nl
               +:+ description +:+ " <br>" +:+ nl)
      end
    else
      ret (nl +:+ nl +:+ "https://github.com/" +:+ REPO_NAME cfg +:+ "/blob/"
           +:+ SHA cfg +:+ "/" +:+ file_path
           +:+ "#L" +:+ Py.str file_line_start
           +:+ "-L" +:+ Py.str file_line_end
           +:+ " " +:+ description +:+ " <br>" +:+ nl)
  else
    ret description.

(** [append_issue(is_note, per_issue_string, new_line, list_of_issues)].
    The Python function appends to the caller's list in place and returns
    the new [per_issue_string]; here both are returned. *)
Definition append_issue (is_note : bool) (per_issue_string new_line : string)
    (list_of_issues : list string) : string * list string :=
  if negb is_note then
    ( new_line,
      if (0 <? Py.len per_issue_string)
         && negb (bool_decide (per_issue_string ∈ list_of_issues))
      then list_of_issues ++ [per_issue_string]
      else list_of_issues )
  else
    (per_issue_string +:+ new_line, list_of_issues).

(** The body of the [for line in tool_output] loop. *)
Definition loop_body (prefix : string)
    (files_changed_in_pr : gmap string (list (Z * Z)))
    (output_to_console : bool) (line : string) (st : LoopState) : M ctl :=
  if Py.startswith line prefix && negb (is_excluded_dir line) then
    let* (file_path, is_note, file_line_start, file_line_end,
           issue_description) := lift (extract_info line prefix) in
    (* In case where we only output to console, skip the next part *)
    if output_to_console then
      let '(per_issue_string, list_of_issues) :=
        append_issue is_note (per_issue_string st) line (list_of_issues st) in
      ret (Continue {| list_of_issues := list_of_issues;
                       per_issue_string := per_issue_string;
                       was_note := was_note st |})
    else if is_part_of_pr_changes file_path file_line_start files_changed_in_pr
    then
      let '(per_issue_string, description) :=
        generate_description is_note (was_note st) file_line_start
          issue_description (per_issue_string st) in
      let was_note := is_note in
      let* new_line :=
        generate_output is_note file_path file_line_start file_line_end
          description in
      let* g := get in
      if check_for_char_limit cfg new_line g then
        let '(per_issue_string, list_of_issues) :=
          append_issue is_note per_issue_string new_line (list_of_issues st) in
        modify (fun g =>
          set_length (CURRENT_COMMENT_LENGTH g + Py.len new_line) g) ;;
        ret (Continue {| list_of_issues := list_of_issues;
                         per_issue_string := per_issue_string;
                         was_note := was_note |})
      else
        modify (set_length (COMMENT_MAX_SIZE cfg)) ;;
        ret (Return (list_of_issues st))
    else ret (Continue st)
  else ret (Continue st).

(** The [for line in tool_output] loop: it runs to the end of the stream
    unless an iteration returns from the function. *)
Fixpoint for_loop (prefix : string)
    (files_changed_in_pr : gmap string (list (Z * Z)))
    (output_to_console : bool) (tool_output : list string) (st : LoopState)
    : M ctl :=
  match tool_output with
  | [] => ret (Continue st)
  | line :: rest =>
      let* c :=
        loop_body prefix files_changed_in_pr output_to_console line st in
      match c with
      | Continue st' =>
          for_loop prefix files_changed_in_pr output_to_console rest st'
      | Return issues => ret (Return issues)
      end
  end.

(** The statements after the loop: the pending entry is appended unless it
    is empty or already present. *)
Definition flush (st : LoopState) : list string :=
  (* Append any unprocessed issues *)
  if (0 <? Py.len (per_issue_string st))
     && negb (bool_decide (per_issue_string st ∈ list_of_issues st))
  then list_of_issues st ++ [per_issue_string st]
  else list_of_issues st.

Definition initial : LoopState :=
  {| list_of_issues := []; per_issue_string := ""; was_note := false |}.

(** The list [list_of_issues] at the [return] that ends the call. *)
Definition finalized_issues (tool_output : list string) (prefix : string)
    (files_changed_in_pr : gmap string (list (Z * Z)))
    (output_to_console : bool) : M (list string) :=
  let* c :=
    for_loop prefix files_changed_in_pr output_to_console tool_output
      initial in
  match c with
  | Continue st => ret (flush st)
  | Return issues => ret issues
  end.

(** Both [return] statements of the function build their value in the
    same way from [list_of_issues]. *)
Definition returned (list_of_issues : list string) : string * Z :=
  (Py.join nl list_of_issues, Z.of_nat (length list_of_issues)).

(** [create_comment_for_output(tool_output, prefix, files_changed_in_pr,
    output_to_console)] *)
Definition create_comment_for_output (tool_output : list string)
    (prefix : string) (files_changed_in_pr : gmap string (list (Z * Z)))
    (output_to_console : bool) : M (string * Z) :=
  let* issues :=
    finalized_issues tool_output prefix files_changed_in_pr
      output_to_console in
  ret (returned issues).

(** [prepare_comment_body(cppcheck_comment, clang_tidy_comment,
    cppcheck_issues_found, clang_tidy_issues_found)], which reads the
    running length.  The call of [utils.debug_print] is left out. *)
Definition prepare_comment_body (cppcheck_comment clang_tidy_comment : string)
    (cppcheck_issues_found clang_tidy_issues_found : Z) (g : Globals)
    : string :=
  let full_comment_body :=
    if (cppcheck_issues_found =? 0) && (clang_tidy_issues_found =? 0) then
      "## <p align=" +:+ dq +:+ "center" +:+ dq +:+ "><b> :white_check_mark:"
      +:+ COMMENT_TITLE cfg +:+ " - no issues found! :white_check_mark: </b></p>"
    else
      let full_comment_body :=
        "## <p align=" +:+ dq +:+ "center" +:+ dq +:+ "><b> :zap: "
        +:+ COMMENT_TITLE cfg +:+ " :zap: </b></p> " +:+ nl +:+ nl in
      let full_comment_body :=
        if 0 <? Py.len cppcheck_comment then
          full_comment_body
          +:+ "<details> <summary> <b> :red_circle: cppcheck found "
          +:+ Py.str cppcheck_issues_found +:+ " "
          +:+ (if 1 <? cppcheck_issues_found then "issues" else "issue")
          +:+ "!"
          +:+ " Click here to see details. </b> </summary> <br>"
          +:+ cppcheck_comment +:+ " </details>"
        else full_comment_body in
      let full_comment_body :=
        full_comment_body +:+ nl +:+ nl +:+ " *** " +:+ nl in
      if 0 <? Py.len clang_tidy_comment then
        full_comment_body
        +:+ "<details> <summary> <b> :red_circle: clang-tidy found "
        +:+ Py.str clang_tidy_issues_found +:+ " "
        +:+ (if 1 <? clang_tidy_issues_found then "issues" else "issue")
        +:+ "!"
        +:+ " Click here to see details. </b> </summary> <br>"
        +:+ clang_tidy_comment +:+ " </details><br>" +:+ nl
      else full_comment_body in
  if CURRENT_COMMENT_LENGTH g =? COMMENT_MAX_SIZE cfg then
    full_comment_body +:+ nl +:+ "```diff" +:+ nl
    +:+ MAX_CHAR_COUNT_REACHED cfg +:+ nl +:+ "```"
  else full_comment_body.

End Program.

(** ** An instance of the helpers, from the specification *)

Module SpecUtils.

(** Modelled from the spec: [utils.is_excluded_dir], missing from the
    analysed sources.  A line is skipped when it matches an
    excluded-directory pattern; the patterns are taken as path prefixes. *)
Definition is_excluded_dir (excluded : list string) (line : string) : bool :=
  existsb (Py.startswith line) excluded.

(** Nesting depth added by the brackets and parentheses of a text. *)
Fixpoint depth (s : string) : Z :=
  match s with
  | EmptyString => 0
  | String c s' =>
      (if Ascii.eqb c "(" || Ascii.eqb c "[" then 1
       else if Ascii.eqb c ")" || Ascii.eqb c "]" then -1
       else 0) + depth s'
  end.

Fixpoint advance (following : list string) (open line_end : Z) : Z :=
  match following with
  | [] => line_end
  | l :: rest =>
      if 0 <? open then advance rest (open + depth l) (line_end + 1)
      else line_end
  end.

(** Modelled from the spec: [utils.get_file_line_end], missing from the
    analysed sources.  If the statement at [lineStart] has unbalanced open
    brackets or parentheses, [lineEnd] advances until they are balanced or
    the file ends; otherwise, and when the file cannot be opened,
    [lineEnd = lineStart]. *)
Definition get_file_line_end (fs : string -> file) (file_path : string)
    (file_line_start : Z) : Z :=
  match fs file_path with
  | Readable lines =>
      match lines !! Z.to_nat (file_line_start - 1) with
      | Some l =>
          if 1 <=? file_line_start
          then advance (drop (Z.to_nat file_line_start) lines) (depth l)
                 file_line_start
          else file_line_start
      | None => file_line_start
      end
  | _ => file_line_start
  end.

(** Modelled from the spec: [utils.is_part_of_pr_changes], missing from
    the analysed sources.  True if the mapping is empty, or the path is
    present and the line falls within at least one recorded interval. *)
Definition is_part_of_pr_changes (file_path : string) (line : Z)
    (files_changed_in_pr : gmap string (list (Z * Z))) : bool :=
  bool_decide (files_changed_in_pr = ∅)
  || match files_changed_in_pr !! file_path with
     | Some intervals =>
         existsb (fun '(lo, hi) => (lo <=? line) && (line <=? hi)) intervals
     | None => false
     end.

(** Modelled from the spec: [utils.generate_description], missing from
    the analysed sources.  The pending entry is left as it is and the
    text of the diagnostic is rendered undecorated. *)
Definition generate_description (is_note was_note : bool)
    (file_line_start : Z) (issue_description output_string : string)
    : string * string :=
  (output_string, issue_description).

Definition utils (fs : string -> file) (excluded : list string) : SaUtils :=
  Build_SaUtils (is_excluded_dir excluded) (get_file_line_end fs)
    is_part_of_pr_changes generate_description.

End SpecUtils.

(** ** A small concrete world, for executing the functions *)

Module Demo.

Definition cfg (max : Z) : Config :=
  {| REPO_NAME := "fork/app";
     TARGET_REPO_NAME := "fork/app";
     SHA := "abc";
     COMMENT_TITLE := "Static analysis result";
     COMMENT_MAX_SIZE := max;
     MAX_CHAR_COUNT_REACHED := "!Maximum character count reached" |}.

(** The same, for a pull request that comes from another repository. *)
Definition cfg_fork (max : Z) : Config :=
  {| REPO_NAME := "fork/app";
     TARGET_REPO_NAME := "upstream/app";
     SHA := "abc";
     COMMENT_TITLE := "Static analysis result";
     COMMENT_MAX_SIZE := max;
     MAX_CHAR_COUNT_REACHED := "!Maximum character count reached" |}.

(** One source file of two lines; [locked.cc] exists but cannot be read. *)
Definition fs (path : string) : file :=
  if String.eqb path "a.cc"
  then Readable ["int f(int x," +:+ nl; "      int y);" +:+ nl]
  else if String.eqb path "locked.cc" then Unopenable
  else Missing.

Definition utils : SaUtils := SpecUtils.utils fs [].

Definition fresh : Globals :=
  {| CURRENT_COMMENT_LENGTH := 0; FILES_WITH_ISSUES := ∅; trace := [] |}.

(** The pull request changes lines 1 to 5 of [a.cc]. *)
Definition changed : gmap string (list (Z * Z)) := {[ "a.cc" := [(1, 5)] ]}.

(** The globals once [a.cc] has been read into the cache. *)
Definition warm : Globals :=
  set_file "a.cc" ["int f(int x," +:+ nl; "      int y);" +:+ nl] fresh.

End Demo.

(** ** Notions used in the statements *)

(** Cumulative character length of a list of entries. *)
Definition total_length (l : list string) : Z :=
  foldr (fun e n => Py.len e + n) 0 l.

(** Number of copies of an entry in a list of entries. *)
Definition copies (e : string) (l : list string) : nat :=
  length (filter (fun x => x = e) l).

(** How the aggregator treats a line of the stream. *)
Inductive kind : Type := Skip | Note | Issue.

Global Instance kind_eq_dec : EqDecision kind.
Proof. solve_decision. Defined.

Section Notions.

Context (fs : string -> file) {U : SaUtils}.

(** A line is skipped when it does not start with the prefix, lies in an
    excluded directory or, when the comment is built, fails the range
    filter; otherwise it is a note or an issue. *)
Definition classify (prefix : string)
    (files_changed_in_pr : gmap string (list (Z * Z)))
    (output_to_console : bool) (line : string) : kind :=
  if Py.startswith line prefix && negb (is_excluded_dir line) then
    match extract_info line prefix with
    | inr (file_path, is_note, file_line_start, _, _) =>
        if output_to_console
           || is_part_of_pr_changes file_path file_line_start
                files_changed_in_pr
        then (if is_note then Note else Issue)
        else Skip
    | inl _ => Skip
    end
  else Skip.

(** Number of lines of the stream that are issues. *)
Definition issue_lines (prefix : string)
    (files_changed_in_pr : gmap string (list (Z * Z)))
    (output_to_console : bool) (tool_output : list string) : nat :=
  length (filter
    (fun line =>
       classify prefix files_changed_in_pr output_to_console line = Issue)
    tool_output).

(** Whether the first line of the stream that is not skipped is a note. *)
Fixpoint starts_with_note (prefix : string)
    (files_changed_in_pr : gmap string (list (Z * Z)))
    (output_to_console : bool) (tool_output : list string) : bool :=
  match tool_output with
  | [] => false
  | line :: rest =>
      match classify prefix files_changed_in_pr output_to_console line with
      | Skip =>
          starts_with_note prefix files_changed_in_pr output_to_console rest
      | Note => true
      | Issue => false
      end
  end.

(** Every cached file holds the lines that reading it again would give. *)
Definition cache_ok (g : Globals) : Prop :=
  forall path lines,
    FILES_WITH_ISSUES g !! path = Some lines -> fs path = Readable lines.

(** The pending entry that [utils.generate_description] hands back is never
    longer than the one it was given. *)
Definition trims : Prop :=
  forall is_note was_note file_line_start issue_description output_string,
    (String.length
       (fst (generate_description is_note was_note file_line_start
               issue_description output_string))
     <= String.length output_string)%nat.

End Notions.

(** *** The report body, part by part as the specification describes it *)

Section Report.

Context (cfg : Config).

Definition no_issues_banner : string :=
  "## <p align=" +:+ dq +:+ "center" +:+ dq +:+ "><b> :white_check_mark:"
  +:+ COMMENT_TITLE cfg +:+ " - no issues found! :white_check_mark: </b></p>".

Definition heading : string :=
  "## <p align=" +:+ dq +:+ "center" +:+ dq +:+ "><b> :zap: "
  +:+ COMMENT_TITLE cfg +:+ " :zap: </b></p> " +:+ nl +:+ nl.

(** "1 issue", and "N issues" for any other count. *)
Definition pluralized (count : Z) : string :=
  Py.str count +:+ " " +:+ (if count =? 1 then "issue" else "issues").

(** The collapsible section of a tool, present when the tool has entries. *)
Definition section (tool : string) (count : Z) (entries closing : string)
    : string :=
  if 0 <? count then
    "<details> <summary> <b> :red_circle: " +:+ tool +:+ " found "
    +:+ pluralized count +:+ "! Click here to see details. </b> </summary> <br>"
    +:+ entries +:+ closing
  else "".

Definition divider : string := nl +:+ nl +:+ " *** " +:+ nl.

Definition truncation_notice : string :=
  nl +:+ "```diff" +:+ nl +:+ MAX_CHAR_COUNT_REACHED cfg +:+ nl +:+ "```".

End Report.

(** *** Notions of the proofs *)

(** Characters held by the loop: the finalized entries and the pending one. *)
Definition weight (st : LoopState) : Z :=
  total_length (list_of_issues st) + Py.len (per_issue_string st).

(** The entries carried by the outcome of an iteration are distinct. *)
Definition ctl_NoDup (c : ctl) : Prop :=
  match c with
  | Continue st => NoDup (list_of_issues st)
  | Return issues => NoDup issues
  end.

(** The files that the module has opened so far, most recent first. *)
Definition opened (g : Globals) : list string :=
  omap (fun e => match e with Opened path => Some path | Printed _ => None end)
    (trace g).



(** Two states of the globals with the same running length, whose caches
    both agree with the files. *)
Definition related (fs : string -> file) (g1 g2 : Globals) : Prop :=
  CURRENT_COMMENT_LENGTH g1 = CURRENT_COMMENT_LENGTH g2
  /\ cache_ok fs g1 /\ cache_ok fs g2.

(** The outcome of an iteration or of a loop that keeps the cache and the
    trace, and that raises nothing but [ValueError]. *)
Definition quiet {A : Type} (g : Globals) (r : (Py.exn + A) * Globals) : Prop :=
  FILES_WITH_ISSUES (snd r) = FILES_WITH_ISSUES g
  /\ trace (snd r) = trace g
  /\ forall e, fst r = inl e -> e = Py.ValueError.

(** ** The rest of the program *)

(** *** More built-ins *)

Module PyText.

(** [s.endswith(suffix)] *)
Fixpoint endswith (s suffix : string) : bool :=
  String.eqb s suffix
  || match s with
     | EmptyString => false
     | String _ s' => endswith s' suffix
     end.

(** [needle in s] on two [str] *)
Fixpoint contains (needle s : string) : bool :=
  String.prefix needle s
  || match s with
     | EmptyString => false
     | String _ s' => contains needle s'
     end.

(** [s.startswith(tuple(prefixes))] and [s.endswith(tuple(suffixes))] *)
Definition startswith_any (s : string) (prefixes : list string) : bool :=
  existsb (Py.startswith s) prefixes.

Definition endswith_any (s : string) (suffixes : list string) : bool :=
  existsb (endswith s) suffixes.

End PyText.

(** *** [src/get_files_to_check.py] *)

Definition supported_extensions : list string :=
  [".h"; ".hpp"; ".hcc"; ".c"; ".cc"; ".cpp"; ".cxx"].

(** The script, as a function of its two arguments and of the resolved
    paths that [Path(directory).rglob('*.*')] yields, in that order; the
    result is the list of the paths printed. *)
Definition get_files_to_check (exclude directory : string)
    (paths : list string) : list string :=
  let exclude_prefixes := [exclude; directory +:+ "/build"] in
  filter
    (fun p =>
       Is_true (PyText.endswith_any p supported_extensions
                && negb (PyText.startswith_any p exclude_prefixes)))
    paths.

(** *** [read_files_and_parse_results] and the main program *)

(** The command line, once parsed by [argparse]. *)
Record Args : Type := {
  cppcheck : string;
  clangtidy : string;
  output_to_console : string;
  fork_repository : string;
  common : string;
  head : string;
}.

(** What [read_files_and_parse_results] takes from [sa_utils]; the code of
    these is not among the analysed sources. *)
Class SaEnv : Type := {
  (** [utils.WORK_DIR] *)
  WORK_DIR : string;
  (** [utils.ONLY_PR_CHANGES] *)
  ONLY_PR_CHANGES : string;
  (** [utils.get_changed_files(common_ancestor, feature_branch)] *)
  get_changed_files : string -> string -> gmap string (list (Z * Z));
}.

(** Escape character, for the colour of the console output. *)
Definition esc : string := String (ascii_of_nat 27) EmptyString.

(** A comment of the pull request, as the program sees it through the
    GitHub client: its id, the login of its author and its text. *)
Record Comment : Type := {
  comment_id : Z;
  login : string;
  body : string;
}.

(** The comments of the pull request in the order [get_issue_comments]
    lists them, with what GitHub decides when a comment is created: the
    login the token posts as, and the id the new comment gets. *)
Record PullRequest : Type := {
  comments : list Comment;
  poster : string;
  next_id : Z;
}.

(** The [for comment in comments] loop of [create_or_edit_comment]: the
    first comment of the automation identity whose text holds the title,
    with its position. *)
Fixpoint find_comment (title : string) (comments : list Comment)
    : option (nat * Comment) :=
  match comments with
  | [] => None
  | comment :: rest =>
      if String.eqb (login comment) "github-actions[bot]"
         && PyText.contains title (body comment)
      then Some (O, comment)
      else prod_map S id <$> find_comment title rest
  end.

Section MainProgram.

Context (cfg : Config) (fs : string -> file) {U : SaUtils} {E : SaEnv}.

(** [read_files_and_parse_results()], from the point where the command line
    has been parsed and [REPO_NAME] set.  The call of [utils.debug_print] is
    left out. *)
Definition read_files_and_parse_results (args : Args)
    : M (string * string * Z * Z * bool) :=
  let cppcheck_file_name := cppcheck args in
  let clangtidy_file_name := clangtidy args in
  let output_to_console := String.eqb (output_to_console args) "true" in
  let* cppcheck_content := open_readlines fs cppcheck_file_name in
  let* clang_tidy_content := open_readlines fs clangtidy_file_name in
  let common_ancestor := common args in
  let feature_branch := head args in
  let line_prefix := WORK_DIR in
  let files_changed_in_pr :=
    if negb output_to_console && String.eqb ONLY_PR_CHANGES "true"
    then get_changed_files common_ancestor feature_branch
    else ∅ in
  let* (cppcheck_comment, cppcheck_issues_found) :=
    create_comment_for_output cfg fs cppcheck_content line_prefix
      files_changed_in_pr output_to_console in
  let* (clang_tidy_comment, clang_tidy_issues_found) :=
    create_comment_for_output cfg fs clang_tidy_content line_prefix
      files_changed_in_pr output_to_console in
  (if output_to_console
      && (negb (cppcheck_issues_found =? 0)
          || negb (clang_tidy_issues_found =? 0))
   then
     print ("##[error] Issues found!" +:+ nl) ;;
     let error_color := esc +:+ "[31m" in
     (if negb (cppcheck_issues_found =? 0)
      then print (error_color +:+ "cppcheck results: " +:+ cppcheck_comment)
      else ret tt) ;;
     (if negb (clang_tidy_issues_found =? 0)
      then print (error_color +:+ "clang-tidy results: "
                  +:+ clang_tidy_comment)
      else ret tt)
   else ret tt) ;;
  ret (cppcheck_comment, clang_tidy_comment, cppcheck_issues_found,
       clang_tidy_issues_found, output_to_console).

(** [create_or_edit_comment(comment_body)], on the comments of the pull
    request.  Failures of the GitHub client are not modelled. *)
Definition create_or_edit_comment (comment_body : string) (pr : PullRequest)
    : PullRequest :=
  let create :=
    {| comments :=
         comments pr
         ++ [{| comment_id := next_id pr; login := poster pr;
                body := comment_body |}];
       poster := poster pr;
       next_id := next_id pr + 1 |} in
  match find_comment (COMMENT_TITLE cfg) (comments pr) with
  | Some (i, comment_to_edit) =>
      let found_id := comment_id comment_to_edit in
      if negb (found_id =? -1) then
        {| comments :=
             <[i := {| comment_id := comment_id comment_to_edit;
                       login := login comment_to_edit;
                       body := comment_body |}]> (comments pr);
           poster := poster pr;
           next_id := next_id pr |}
      else create
  | None => create
  end.

(** The [if __name__ == "__main__"] block: the value handed to [sys.exit]
    and the comments of the pull request afterwards. *)
Definition main (args : Args) (pr : PullRequest) : M (Z * PullRequest) :=
  let* (cppcheck_comment_in, clang_tidy_comment_in, cppcheck_issues_found_in,
        clang_tidy_issues_found_in, output_to_console_in) :=
    read_files_and_parse_results args in
  let* pr' :=
    if negb output_to_console_in then
      let* g := get in
      let comment_body_in :=
        prepare_comment_body cfg cppcheck_comment_in clang_tidy_comment_in
          cppcheck_issues_found_in clang_tidy_issues_found_in g in
      ret (create_or_edit_comment comment_body_in pr)
    else ret pr in
  ret (cppcheck_issues_found_in + clang_tidy_issues_found_in, pr').

End MainProgram.

(** *** Console mode, as grouping followed by the removal of duplicates *)

(** The lines of the stream that are not skipped, each with its note flag,
    or the exception of the first of them that does not parse. *)
Fixpoint console_items {U : SaUtils} (prefix : string)
    (tool_output : list string) : Py.exn + list (bool * string) :=
  match tool_output with
  | [] => inr []
  | line :: rest =>
      if Py.startswith line prefix && negb (is_excluded_dir line) then
        match extract_info line prefix with
        | inl e => inl e
        | inr (_, is_note, _, _, _) =>
            match console_items prefix rest with
            | inl e => inl e
            | inr items => inr ((is_note, line) :: items)
            end
        end
      else console_items prefix rest
  end.

(** An issue closes the group before it and opens one; a note joins the
    open group. *)
Fixpoint console_groups (pending : string) (items : list (bool * string))
    : list string :=
  match items with
  | [] => [pending]
  | (true, line) :: rest => console_groups (pending +:+ line) rest
  | (false, line) :: rest => pending :: console_groups line rest
  end.

(** A group becomes an entry unless it is empty or already one. *)
Definition add_entry (entries : list string) (group : string) : list string :=
  if (0 <? Py.len group) && negb (bool_decide (group ∈ entries))
  then entries ++ [group]
  else entries.

(** *** A concrete run of the whole program *)

Module DemoRun.

(** The two files of tool output, beside the files of [Demo.fs]. *)
Definition fs (path : string) : file :=
  if String.eqb path "cppcheck.txt"
  then Readable ["/w/a.cc:1:5: error: first" +:+ nl;
                 "/w/a.cc:1:5: note: see above" +:+ nl;
                 "Checking /w/a.cc ..." +:+ nl]
  else if String.eqb path "clang_tidy.txt"
  then Readable ["/w/a.cc:2:7: warning: second" +:+ nl]
  else Demo.fs path.

Definition utils : SaUtils := SpecUtils.utils fs [].

Definition env : SaEnv :=
  {| WORK_DIR := "/w";
     ONLY_PR_CHANGES := "true";
     get_changed_files := fun _ _ => Demo.changed |}.

Definition args : Args :=
  {| cppcheck := "cppcheck.txt";
     clangtidy := "clang_tidy.txt";
     output_to_console := "false";
     fork_repository := "false";
     common := "main";
     head := "feature" |}.

(** A pull request with one comment, of a reviewer. *)
Definition pr : PullRequest :=
  {| comments := [{| comment_id := 7; login := "alice"; body := "LGTM" |}];
     poster := "github-actions[bot]";
     next_id := 8 |}.

End DemoRun.

(** * Properties *)

Section Loop.

Context (cfg : Config) (fs : string -> file) {U : SaUtils}.

Implicit Types (g : Globals) (st : LoopState) (line prefix : string).
Implicit Types (changed : gmap string (list (Z * Z))) (console : bool).

(** *** Running the loop over a stream that is split in two *)

Lemma for_loop_app prefix changed console pre post st g :
  for_loop cfg fs prefix changed console (pre ++ post) st g =
  match for_loop cfg fs prefix changed console pre st g with
  | (inr (Continue st1), g1) =>
      for_loop cfg fs prefix changed console post st1 g1
  | r => r
  end.
Proof.
  revert st g. induction pre as [|line pre IH]; intros st g; simpl.
  - reflexivity.
  - unfold bind.
    destruct (loop_body cfg fs prefix changed console line st g)
      as [[e|[st1|issues]] g1]; auto.
Qed.

(** *** [generate_output] leaves the running length alone *)

Lemma generate_output_length is_note file_path a b description g :
  CURRENT_COMMENT_LENGTH
    (snd (generate_output cfg fs is_note file_path a b description g))
  = CURRENT_COMMENT_LENGTH g.
Proof.
  unfold generate_output, print.
  unfold bind, ret, get, raise, cached, modify, except_FileNotFoundError,
    open_readlines.
  repeat (case_match; simplify_eq/=; try reflexivity).
Qed.

(** *** One iteration that renders a line *)

Lemma loop_body_rendered prefix changed line st g file_path is_note a b
    issue_description new_line g2 :
  Py.startswith line prefix = true ->
  is_excluded_dir line = false ->
  extract_info line prefix = inr (file_path, is_note, a, b, issue_description) ->
  is_part_of_pr_changes file_path a changed = true ->
  generate_output cfg fs is_note file_path a b
    (snd (generate_description is_note (was_note st) a issue_description
            (per_issue_string st))) g = (inr new_line, g2) ->
  loop_body cfg fs prefix changed false line st g =
  if check_for_char_limit cfg new_line g2 then
    let pending :=
      fst (generate_description is_note (was_note st) a issue_description
             (per_issue_string st)) in
    let r := append_issue is_note pending new_line (list_of_issues st) in
    (inr (Continue {| list_of_issues := snd r;
                      per_issue_string := fst r;
                      was_note := is_note |}),
     set_length (CURRENT_COMMENT_LENGTH g2 + Py.len new_line) g2)
  else
    (inr (Return (list_of_issues st)), set_length (COMMENT_MAX_SIZE cfg) g2).
Proof.
  intros Hp He Hx Hc Hg. unfold loop_body.
  rewrite Hp, He. simpl. unfold bind at 1, lift. rewrite Hx, Hc.
  destruct (generate_description is_note (was_note st) a issue_description
              (per_issue_string st)) as [pending description] eqn:Hd.
  simpl in *. unfold bind at 1. rewrite Hg.
  unfold bind, get, modify, ret.
  destruct (check_for_char_limit cfg new_line g2); [|reflexivity].
  destruct (append_issue is_note pending new_line (list_of_issues st)).
  reflexivity.
Qed.

(** *** The running length never decreases *)

Lemma loop_body_length prefix changed console line st g r g' :
  CURRENT_COMMENT_LENGTH g <= COMMENT_MAX_SIZE cfg ->
  loop_body cfg fs prefix changed console line st g = (r, g') ->
  CURRENT_COMMENT_LENGTH g <= CURRENT_COMMENT_LENGTH g'
  /\ CURRENT_COMMENT_LENGTH g' <= COMMENT_MAX_SIZE cfg.
Proof.
  intros Hmax H. unfold loop_body, bind, lift, ret, get, modify in H.
  repeat case_match; simplify_eq/=; try lia;
    match goal with
    | Hg : generate_output _ _ ?n ?p ?a ?b ?d ?g = (_, ?g2) |- _ =>
        pose proof (generate_output_length n p a b d g) as Hlen;
        rewrite Hg in Hlen; simpl in Hlen
    end;
    unfold check_for_char_limit, Py.len in *; lia.
Qed.

Lemma for_loop_length prefix changed console lines st g r g' :
  CURRENT_COMMENT_LENGTH g <= COMMENT_MAX_SIZE cfg ->
  for_loop cfg fs prefix changed console lines st g = (r, g') ->
  CURRENT_COMMENT_LENGTH g <= CURRENT_COMMENT_LENGTH g'
  /\ CURRENT_COMMENT_LENGTH g' <= COMMENT_MAX_SIZE cfg.
Proof.
  revert st g. induction lines as [|line lines IH]; intros st g Hmax H.
  - inversion H; subst. lia.
  - simpl in H. unfold bind in H.
    destruct (loop_body cfg fs prefix changed console line st g)
      as [[e|[st1|issues]] g1] eqn:Hb;
      destruct (loop_body_length _ _ _ _ _ _ _ _ Hmax Hb) as [H1 H2].
    + inversion H; subst. lia.
    + destruct (IH _ _ H2 H). lia.
    + inversion H; subst. lia.
Qed.

(** ** The budget *)

(** C1: when the line rendered next would bring the running length to the
    configured maximum or beyond, [create_comment_for_output] stops at
    once: the rest of the stream is not read, the pending entry is dropped,
    the running length is set to the maximum, and the entries finalized
    before are returned with their count. *)
Theorem budget_exceeded_returns_finalized prefix changed pre line post st
    g0 g1 file_path is_note a b issue_description new_line g2 :
  for_loop cfg fs prefix changed false pre initial g0
    = (inr (Continue st), g1) ->
  Py.startswith line prefix = true ->
  is_excluded_dir line = false ->
  extract_info line prefix = inr (file_path, is_note, a, b, issue_description) ->
  is_part_of_pr_changes file_path a changed = true ->
  generate_output cfg fs is_note file_path a b
    (snd (generate_description is_note (was_note st) a issue_description
            (per_issue_string st))) g1 = (inr new_line, g2) ->
  COMMENT_MAX_SIZE cfg <= CURRENT_COMMENT_LENGTH g2 + Py.len new_line ->
  create_comment_for_output cfg fs (pre ++ line :: post) prefix changed
    false g0
  = (inr (returned (list_of_issues st)),
     set_length (COMMENT_MAX_SIZE cfg) g2).
Proof.
  intros Hpre Hp He Hx Hc Hg Hover.
  unfold create_comment_for_output, finalized_issues.
  unfold bind at 1 2. rewrite for_loop_app, Hpre. simpl.
  unfold bind at 1.
  rewrite (loop_body_rendered _ _ _ _ _ _ _ _ _ _ _ _ Hp He Hx Hc Hg).
  unfold check_for_char_limit.
  destruct (Z.ltb_spec (CURRENT_COMMENT_LENGTH g2 + Py.len new_line)
              (COMMENT_MAX_SIZE cfg)); [lia|].
  reflexivity.
Qed.

(** C10: a rendered line that passes the budget check is charged to the
    running length in the same iteration, whatever the list of entries and
    the pending entry are.  When the pending entry that the line closes is
    a duplicate, the list stays as it is and the line is charged all the
    same; and nothing that happens later in the run, such as the entry of
    the line being dropped as a duplicate in its turn, gives the characters
    back. *)
Theorem passing_line_is_charged prefix changed line st g file_path is_note
    a b issue_description new_line g2 :
  Py.startswith line prefix = true ->
  is_excluded_dir line = false ->
  extract_info line prefix = inr (file_path, is_note, a, b, issue_description) ->
  is_part_of_pr_changes file_path a changed = true ->
  generate_output cfg fs is_note file_path a b
    (snd (generate_description is_note (was_note st) a issue_description
            (per_issue_string st))) g = (inr new_line, g2) ->
  CURRENT_COMMENT_LENGTH g2 + Py.len new_line < COMMENT_MAX_SIZE cfg ->
  exists st' g',
    loop_body cfg fs prefix changed false line st g = (inr (Continue st'), g')
    /\ CURRENT_COMMENT_LENGTH g'
       = CURRENT_COMMENT_LENGTH g + Py.len new_line
    /\ (is_note = false ->
        fst (generate_description is_note (was_note st) a issue_description
               (per_issue_string st)) ∈ list_of_issues st ->
        list_of_issues st' = list_of_issues st)
    /\ forall post r g'',
         for_loop cfg fs prefix changed false post st' g' = (r, g'') ->
         CURRENT_COMMENT_LENGTH g + Py.len new_line
         <= CURRENT_COMMENT_LENGTH g''.
Proof.
  intros Hp He Hx Hc Hg Hunder.
  rewrite (loop_body_rendered _ _ _ _ _ _ _ _ _ _ _ _ Hp He Hx Hc Hg).
  unfold check_for_char_limit.
  destruct (Z.ltb_spec (CURRENT_COMMENT_LENGTH g2 + Py.len new_line)
              (COMMENT_MAX_SIZE cfg)); [|lia].
  pose proof (generate_output_length is_note file_path a b
    (snd (generate_description is_note (was_note st) a issue_description
            (per_issue_string st))) g) as Hlen.
  rewrite Hg in Hlen. simpl in Hlen.
  eexists _, _. split; [reflexivity|]. split; [simpl; lia|]. split.
  - intros -> Hin. unfold append_issue. simpl.
    rewrite bool_decide_eq_true_2 by exact Hin.
    rewrite andb_false_r. reflexivity.
  - intros post r g'' Hrun.
    apply for_loop_length in Hrun; simpl in *; lia.
Qed.

End Loop.

Section Dedup.

Context (cfg : Config) (fs : string -> file) {U : SaUtils}.

Implicit Types (g : Globals) (st : LoopState) (line prefix : string).
Implicit Types (changed : gmap string (list (Z * Z))) (console : bool).

Lemma copies_not_in (e : string) (l : list string) : e ∉ l -> copies e l = 0%nat.
Proof.
  unfold copies. induction l as [|x l IH]; [reflexivity|]. intros Hin.
  apply not_elem_of_cons in Hin as [Hne Hin'].
  rewrite filter_cons_False by congruence. auto.
Qed.

Lemma copies_NoDup (e : string) (l : list string) :
  NoDup l -> e ∈ l -> copies e l = 1%nat.
Proof.
  unfold copies. induction 1 as [|x l Hx Hnd IH]; intros Hin.
  - inversion Hin.
  - destruct (decide (x = e)) as [->|Hne].
    + rewrite filter_cons_True by reflexivity. simpl.
      f_equal. apply copies_not_in, Hx.
    + rewrite filter_cons_False by assumption.
      apply IH. apply elem_of_cons in Hin as [Heq|Hin']; [congruence|exact Hin'].
Qed.

Lemma nonempty_len (s : string) : s <> "" -> (0 <? Py.len s) = true.
Proof.
  destruct s; [congruence|]. intros _. apply Z.ltb_lt.
  unfold Py.len. simpl String.length. lia.
Qed.

Lemma append_issue_NoDup is_note p new_line (l : list string) :
  NoDup l -> NoDup (snd (append_issue is_note p new_line l)).
Proof.
  intros Hnd. unfold append_issue.
  destruct is_note; simpl; [assumption|].
  destruct (0 <? Py.len p); simpl; [|assumption].
  case_bool_decide; simpl; [assumption|].
  apply NoDup_app. split_and!; [assumption| |apply NoDup_singleton].
  intros x Hx Hx'. apply list_elem_of_singleton in Hx'. congruence.
Qed.

Lemma append_issue_elem p new_line (l : list string) :
  p <> "" -> p ∈ snd (append_issue false p new_line l).
Proof.
  intros Hp. unfold append_issue. simpl. rewrite (nonempty_len _ Hp). simpl.
  case_bool_decide; simpl; [assumption|].
  apply elem_of_app. right. apply list_elem_of_singleton. reflexivity.
Qed.

Lemma flush_NoDup st : NoDup (list_of_issues st) -> NoDup (flush st).
Proof.
  intros Hnd.
  change (flush st) with
    (snd (append_issue false (per_issue_string st) "" (list_of_issues st))).
  apply append_issue_NoDup, Hnd.
Qed.

Lemma flush_elem st : per_issue_string st <> "" -> per_issue_string st ∈ flush st.
Proof.
  intros Hp.
  change (flush st) with
    (snd (append_issue false (per_issue_string st) "" (list_of_issues st))).
  apply append_issue_elem, Hp.
Qed.

Lemma loop_body_NoDup prefix changed console line st g c g' :
  NoDup (list_of_issues st) ->
  loop_body cfg fs prefix changed console line st g = (inr c, g') ->
  ctl_NoDup c.
Proof.
  intros Hnd H. unfold loop_body, bind, lift, ret, get, modify in H.
  repeat case_match; simplify_eq/=; try assumption;
    match goal with
    | Ha : append_issue ?n ?p ?x ?l = (_, ?l') |- NoDup ?l' =>
        change l' with (snd (p, l')) || idtac;
        pose proof (append_issue_NoDup n p x l Hnd) as Hl;
        rewrite Ha in Hl; exact Hl
    end.
Qed.

Lemma for_loop_NoDup prefix changed console lines st g c g' :
  NoDup (list_of_issues st) ->
  for_loop cfg fs prefix changed console lines st g = (inr c, g') ->
  ctl_NoDup c.
Proof.
  revert st g. induction lines as [|line lines IH]; intros st g Hnd H.
  - inversion H; subst. exact Hnd.
  - simpl in H. unfold bind in H.
    destruct (loop_body cfg fs prefix changed console line st g)
      as [[e|[st1|issues]] g1] eqn:Hb; [discriminate| |].
    + apply (IH st1 g1); [|exact H].
      exact (loop_body_NoDup _ _ _ _ _ _ _ _ Hnd Hb).
    + inversion H; subst.
      exact (loop_body_NoDup _ _ _ _ _ _ _ _ Hnd Hb).
Qed.

Lemma finalized_issues_NoDup lines prefix changed console g l g' :
  finalized_issues cfg fs lines prefix changed console g = (inr l, g') ->
  NoDup l.
Proof.
  unfold finalized_issues, bind. intros H.
  destruct (for_loop cfg fs prefix changed console lines initial g)
    as [[e|[st|issues]] g1] eqn:Hl; [discriminate| |];
    inversion H; subst;
    pose proof (for_loop_NoDup _ _ _ _ initial _ _ _ (NoDup_nil_2) Hl) as Hnd.
  - apply flush_NoDup, Hnd.
  - exact Hnd.
Qed.

(** *** Finalized entries reach the returned list *)

Lemma append_issue_prefix is_note p new_line (l : list string) :
  l `prefix_of` snd (append_issue is_note p new_line l).
Proof.
  unfold append_issue. destruct is_note; simpl; [reflexivity|].
  destruct (_ && _); [apply prefix_app_r|]; reflexivity.
Qed.

Lemma loop_body_prefix prefix changed console line st g c g' :
  loop_body cfg fs prefix changed console line st g = (inr c, g') ->
  list_of_issues st
  `prefix_of` match c with
              | Continue st' => list_of_issues st'
              | Return issues => issues
              end.
Proof.
  intros H. unfold loop_body, bind, lift, ret, get, modify in H.
  repeat case_match; simplify_eq/=; try reflexivity;
    match goal with
    | Ha : append_issue ?n ?p ?x ?l = _ |- _ =>
        pose proof (append_issue_prefix n p x l) as Hp;
        rewrite Ha in Hp; exact Hp
    end.
Qed.

Lemma flush_prefix st : list_of_issues st `prefix_of` flush st.
Proof.
  unfold flush. destruct (_ && _); [apply prefix_app_r|]; reflexivity.
Qed.

Lemma for_loop_prefix prefix changed console tool_output st g c g' :
  for_loop cfg fs prefix changed console tool_output st g = (inr c, g') ->
  list_of_issues st
  `prefix_of` match c with
              | Continue st' => flush st'
              | Return issues => issues
              end.
Proof.
  revert st g. induction tool_output as [|line rest IH]; intros st g H.
  - inversion H; subst. apply flush_prefix.
  - simpl in H. unfold bind in H.
    destruct (loop_body cfg fs prefix changed console line st g)
      as [[e|[st1|issues]] g1] eqn:Hb; [discriminate| |];
      pose proof (loop_body_prefix _ _ _ _ _ _ _ _ Hb) as Hp.
    + etrans; [exact Hp|]. exact (IH _ _ H).
    + inversion H; subst. exact Hp.
Qed.

(** An entry that is in [list_of_issues] after a part of the stream is
    once in the list that the run over the whole stream returns. *)
Lemma finalized_once prefix changed console pre post st g0 g1 l g' e :
  for_loop cfg fs prefix changed console pre initial g0
    = (inr (Continue st), g1) ->
  finalized_issues cfg fs (pre ++ post) prefix changed console g0
    = (inr l, g') ->
  e ∈ list_of_issues st ->
  copies e l = 1%nat.
Proof.
  intros Hpre H He. apply copies_NoDup.
  - exact (finalized_issues_NoDup _ _ _ _ _ _ _ H).
  - unfold finalized_issues, bind in H.
    rewrite for_loop_app, Hpre in H.
    destruct (for_loop cfg fs prefix changed console post st g1)
      as [[e'|c] g2] eqn:Hl; [discriminate|].
    pose proof (for_loop_prefix _ _ _ _ _ _ _ _ Hl) as Hp.
    assert (list_of_issues st `prefix_of` l) as [k ->]
      by (destruct c; inversion H; subst; exact Hp).
    apply elem_of_app. left. exact He.
Qed.

(** The entry that an issue line finalizes: the pending entry, in comment
    mode as [utils.generate_description] hands it back. *)
Lemma loop_body_finalizes prefix changed console line st g st' g'
    file_path a b description :
  Py.startswith line prefix = true ->
  is_excluded_dir line = false ->
  extract_info line prefix = inr (file_path, false, a, b, description) ->
  console = true \/ is_part_of_pr_changes file_path a changed = true ->
  loop_body cfg fs prefix changed console line st g
    = (inr (Continue st'), g') ->
  let entry :=
    if console then per_issue_string st
    else fst (generate_description false (was_note st) a description
                (per_issue_string st)) in
  list_of_issues st'
  = snd (append_issue false entry "" (list_of_issues st)).
Proof.
  intros Hp Hx Hi Hm H entry. subst entry.
  unfold loop_body in H. rewrite Hp, Hx, Hi in H.
  unfold bind, lift, ret, get, modify in H. simpl in H.
  destruct console.
  - simpl in H. inversion H; subst. reflexivity.
  - destruct Hm as [|Hm]; [discriminate|]. rewrite Hm in H.
    destruct (generate_description false (was_note st) a description
                (per_issue_string st)) as [p d].
    destruct (generate_output cfg fs false file_path a b d g)
      as [[e|new_line] g1]; [discriminate|].
    destruct (check_for_char_limit cfg new_line g1); [|discriminate].
    simpl in H. inversion H; subst. reflexivity.
Qed.

(** C5: entries are compared as text, and the list that a run returns
    holds exactly one copy of every entry finalized during the run.
    (1) No entry of the returned list is in it twice.  (2) An entry that is
    in [list_of_issues] after any part of the stream is exactly once in the
    list that the run over the whole stream returns.  (3) When an issue
    line is taken up, the pending entry, if not empty, is finalized: it is
    exactly once in the returned list, whatever equal entries were
    finalized before it or are finalized after it; and if it was already
    in [list_of_issues], that list is left as it was.  (4) The same holds
    of the entry that is pending when the stream ends. *)
Theorem duplicates_dropped prefix changed console :
  (forall tool_output g l g',
     finalized_issues cfg fs tool_output prefix changed console g
       = (inr l, g') ->
     forall e, e ∈ l -> copies e l = 1%nat)
  /\ (forall pre post g0 st g1 l g',
        for_loop cfg fs prefix changed console pre initial g0
          = (inr (Continue st), g1) ->
        finalized_issues cfg fs (pre ++ post) prefix changed console g0
          = (inr l, g') ->
        forall e, e ∈ list_of_issues st -> copies e l = 1%nat)
  /\ (forall pre line post g0 st g1 st' g2 l g' file_path a b description,
        for_loop cfg fs prefix changed console pre initial g0
          = (inr (Continue st), g1) ->
        Py.startswith line prefix = true ->
        is_excluded_dir line = false ->
        extract_info line prefix = inr (file_path, false, a, b, description) ->
        console = true \/ is_part_of_pr_changes file_path a changed = true ->
        loop_body cfg fs prefix changed console line st g1
          = (inr (Continue st'), g2) ->
        finalized_issues cfg fs (pre ++ line :: post) prefix changed console g0
          = (inr l, g') ->
        let entry :=
          if console then per_issue_string st
          else fst (generate_description false (was_note st) a description
                      (per_issue_string st)) in
        entry <> "" ->
        copies entry l = 1%nat
        /\ (entry ∈ list_of_issues st ->
            list_of_issues st' = list_of_issues st))
  /\ (forall tool_output g0 st g1 l g',
        for_loop cfg fs prefix changed console tool_output initial g0
          = (inr (Continue st), g1) ->
        finalized_issues cfg fs tool_output prefix changed console g0
          = (inr l, g') ->
        per_issue_string st <> "" ->
        copies (per_issue_string st) l = 1%nat
        /\ (per_issue_string st ∈ list_of_issues st ->
            l = list_of_issues st)).
Proof.
  split_and!.
  - intros tool_output g l g' H e He.
    apply copies_NoDup; [|exact He].
    exact (finalized_issues_NoDup _ _ _ _ _ _ _ H).
  - intros pre post g0 st g1 l g' Hpre H e He.
    exact (finalized_once _ _ _ _ _ _ _ _ _ _ _ Hpre H He).
  - intros pre line post g0 st g1 st' g2 l g' file_path a b description
      Hpre Hp Hx Hi Hm Hb H entry Hne.
    pose proof (loop_body_finalizes _ _ _ _ _ _ _ _ _ _ _ _ Hp Hx Hi Hm Hb)
      as Hl.
    fold entry in Hl. split.
    + apply (finalized_once prefix changed console (pre ++ [line]) post
               st' g0 g2 l g').
      * rewrite for_loop_app, Hpre. simpl. unfold bind. rewrite Hb.
        reflexivity.
      * rewrite <- app_assoc. exact H.
      * rewrite Hl. apply append_issue_elem, Hne.
    + intros Hin. rewrite Hl. unfold append_issue. simpl.
      rewrite bool_decide_eq_true_2 by exact Hin.
      rewrite andb_false_r. reflexivity.
  - intros tool_output g0 st g1 l g' Hl H Hne.
    unfold finalized_issues, bind in H. rewrite Hl in H.
    inversion H; subst. split.
    + apply copies_NoDup; [|apply flush_elem, Hne].
      apply flush_NoDup.
      exact (for_loop_NoDup _ _ _ _ initial _ _ _ (NoDup_nil_2) Hl).
    + intros Hin. unfold flush.
      rewrite bool_decide_eq_true_2 by exact Hin.
      rewrite andb_false_r. reflexivity.
Qed.

End Dedup.

Section Budget.

Context (cfg : Config) (fs : string -> file) {U : SaUtils}.

Implicit Types (g : Globals) (st : LoopState) (line prefix : string).
Implicit Types (changed : gmap string (list (Z * Z))) (console : bool).

Lemma len_nonneg (s : string) : 0 <= Py.len s.
Proof. unfold Py.len. lia. Qed.

Lemma len_app (s t : string) : Py.len (s +:+ t) = Py.len s + Py.len t.
Proof.
  unfold Py.len. induction s as [|c s IH].
  - change ("" +:+ t) with t. simpl String.length. lia.
  - change (String c s +:+ t) with (String c (s +:+ t)).
    simpl String.length. lia.
Qed.

Lemma total_length_cons (e : string) (l : list string) :
  total_length (e :: l) = Py.len e + total_length l.
Proof. reflexivity. Qed.

Lemma total_length_nonneg (l : list string) : 0 <= total_length l.
Proof.
  induction l as [|e l IH]; [reflexivity|].
  rewrite total_length_cons. pose proof (len_nonneg e). lia.
Qed.

Lemma total_length_app (l1 l2 : list string) :
  total_length (l1 ++ l2) = total_length l1 + total_length l2.
Proof.
  induction l1 as [|e l1 IH]; [reflexivity|].
  rewrite <- app_comm_cons, !total_length_cons. lia.
Qed.

Lemma total_length_single (e : string) : total_length [e] = Py.len e.
Proof. rewrite total_length_cons. change (total_length []) with 0. lia. Qed.

Lemma total_length_take (k : nat) (l : list string) :
  total_length (take k l) <= total_length l.
Proof.
  revert k. induction l as [|e l IH]; intros [|k]; try reflexivity.
  - change (take 0 (e :: l)) with (@nil string).
    apply (total_length_nonneg (e :: l)).
  - change (take (S k) (e :: l)) with (e :: take k l).
    rewrite !total_length_cons. specialize (IH k). lia.
Qed.

Lemma append_issue_weight is_note p new_line (l : list string) :
  total_length (snd (append_issue is_note p new_line l))
  + Py.len (fst (append_issue is_note p new_line l))
  <= total_length l + Py.len p + Py.len new_line.
Proof.
  unfold append_issue. pose proof (len_nonneg p).
  destruct is_note; simpl.
  - rewrite len_app. lia.
  - destruct (_ && _); simpl; [|lia].
    rewrite total_length_app, total_length_single. lia.
Qed.

Lemma flush_weight st : total_length (flush st) <= weight st.
Proof.
  unfold flush, weight. pose proof (len_nonneg (per_issue_string st)).
  destruct (_ && _); [|lia].
  rewrite total_length_app, total_length_single. lia.
Qed.

Lemma trims_len (Htrims : trims) a b c d s :
  Py.len (fst (generate_description a b c d s)) <= Py.len s.
Proof. unfold Py.len. specialize (Htrims a b c d s). lia. Qed.

Lemma loop_body_weight (Htrims : trims) prefix changed line st g c g' :
  loop_body cfg fs prefix changed false line st g = (inr c, g') ->
  match c with
  | Continue st' =>
      weight st' - weight st
      <= CURRENT_COMMENT_LENGTH g' - CURRENT_COMMENT_LENGTH g
  | Return issues => issues = list_of_issues st
  end.
Proof.
  intros H. unfold loop_body, bind, lift, ret, get, modify in H.
  repeat case_match; simplify_eq/=; try reflexivity; try lia.
  match goal with
  | Hg : generate_output _ _ ?n ?p ?a ?b ?d ?g = (_, ?g2) |- _ =>
      pose proof (generate_output_length cfg fs n p a b d g) as Hlen;
      rewrite Hg in Hlen; simpl in Hlen
  end.
  match goal with
  | Ha : append_issue ?n ?p ?x ?l = _ |- _ =>
      pose proof (append_issue_weight n p x l) as Hw;
      rewrite Ha in Hw; simpl in Hw
  end.
  match goal with
  | Hd : generate_description ?a ?b ?c ?d ?s = _ |- _ =>
      pose proof (trims_len Htrims a b c d s) as Ht;
      rewrite Hd in Ht; simpl in Ht
  end.
  unfold weight. simpl. lia.
Qed.

Lemma for_loop_weight (Htrims : trims) prefix changed lines st g c g' :
  CURRENT_COMMENT_LENGTH g <= COMMENT_MAX_SIZE cfg ->
  for_loop cfg fs prefix changed false lines st g = (inr c, g') ->
  match c with
  | Continue st' =>
      weight st' - weight st
      <= CURRENT_COMMENT_LENGTH g' - CURRENT_COMMENT_LENGTH g
  | Return issues =>
      total_length issues - weight st
      <= COMMENT_MAX_SIZE cfg - CURRENT_COMMENT_LENGTH g
  end.
Proof.
  revert st g. induction lines as [|line lines IH]; intros st g Hmax H.
  - inversion H; subst. lia.
  - simpl in H. unfold bind in H.
    destruct (loop_body cfg fs prefix changed false line st g)
      as [[e|[st1|issues]] g1] eqn:Hb; [discriminate| |].
    + pose proof (loop_body_weight Htrims _ _ _ _ _ _ _ Hb) as Hw.
      destruct (loop_body_length cfg fs _ _ _ _ _ _ _ _ Hmax Hb) as [H1 H2].
      cbn iota beta in Hw.
      specialize (IH st1 g1 H2 H). destruct c; cbn iota beta in IH |- *; lia.
    + inversion H; subst.
      pose proof (loop_body_weight Htrims _ _ _ _ _ _ _ Hb) as Hw.
      simpl in Hw. subst.
      pose proof (len_nonneg (per_issue_string st)). unfold weight. lia.
Qed.

Lemma loop_body_return prefix changed console line st g issues g' :
  loop_body cfg fs prefix changed console line st g = (inr (Return issues), g') ->
  CURRENT_COMMENT_LENGTH g' = COMMENT_MAX_SIZE cfg.
Proof.
  intros H. unfold loop_body, bind, lift, ret, get, modify in H.
  repeat case_match; simplify_eq/=; reflexivity.
Qed.

Lemma for_loop_return prefix changed console lines st g issues g' :
  for_loop cfg fs prefix changed console lines st g = (inr (Return issues), g') ->
  CURRENT_COMMENT_LENGTH g' = COMMENT_MAX_SIZE cfg.
Proof.
  revert st g. induction lines as [|line lines IH]; intros st g H.
  - inversion H.
  - simpl in H. unfold bind in H.
    destruct (loop_body cfg fs prefix changed console line st g)
      as [[e|[st1|l]] g1] eqn:Hb; [discriminate| |].
    + exact (IH _ _ H).
    + inversion H; subst. exact (loop_body_return _ _ _ _ _ _ _ _ Hb).
Qed.

(** C7, as the code has it: the running length never decreases during a
    run; when the comment is built (not in console mode, where no budget
    applies) the entries returned, and so every prefix of them, hold no
    more characters than the configured maximum; and once the budget is
    hit the run is over, whatever follows in the stream. *)
Theorem budget_law prefix changed g0 :
  trims ->
  0 <= CURRENT_COMMENT_LENGTH g0 <= COMMENT_MAX_SIZE cfg ->
  (forall console pre post st g1 r g2,
     for_loop cfg fs prefix changed console pre initial g0
       = (inr (Continue st), g1) ->
     for_loop cfg fs prefix changed console post st g1 = (r, g2) ->
     CURRENT_COMMENT_LENGTH g0 <= CURRENT_COMMENT_LENGTH g1
     /\ CURRENT_COMMENT_LENGTH g1 <= CURRENT_COMMENT_LENGTH g2)
  /\ (forall tool_output l g',
        finalized_issues cfg fs tool_output prefix changed false g0
          = (inr l, g') ->
        forall k, total_length (take k l) <= COMMENT_MAX_SIZE cfg)
  /\ (forall console pre post l g1,
        for_loop cfg fs prefix changed console pre initial g0
          = (inr (Return l), g1) ->
        CURRENT_COMMENT_LENGTH g1 = COMMENT_MAX_SIZE cfg
        /\ finalized_issues cfg fs (pre ++ post) prefix changed console g0
           = (inr l, g1)).
Proof.
  intros Htrims [Hlo Hhi]. split_and!.
  - intros console pre post st g1 r g2 Hpre Hpost.
    destruct (for_loop_length cfg fs _ _ _ _ _ _ _ _ Hhi Hpre) as [H1 H2].
    destruct (for_loop_length cfg fs _ _ _ _ _ _ _ _ H2 Hpost) as [H3 _].
    lia.
  - intros tool_output l g' H k.
    pose proof (total_length_take k l) as Hk.
    enough (total_length l <= COMMENT_MAX_SIZE cfg) by lia.
    unfold finalized_issues, bind in H.
    destruct (for_loop cfg fs prefix changed false tool_output initial g0)
      as [[e|[st|issues]] g1] eqn:Hl; [discriminate| |];
      inversion H; subst;
      pose proof (for_loop_weight Htrims _ _ _ _ _ _ _ Hhi Hl) as Hw;
      simpl in Hw; unfold weight in Hw; simpl in Hw.
    + pose proof (flush_weight st) as Hf. unfold weight in Hf.
      destruct (for_loop_length cfg fs _ _ _ _ _ _ _ _ Hhi Hl) as [_ H2].
      change (Py.len "") with 0 in Hw. lia.
    + change (Py.len "") with 0 in Hw. lia.
  - intros console pre post l g1 Hpre. split.
    + exact (for_loop_return _ _ _ _ _ _ _ _ Hpre).
    + unfold finalized_issues, bind. rewrite for_loop_app, Hpre. reflexivity.
Qed.

End Budget.

Section Counting.

Context (cfg : Config) (fs : string -> file) {U : SaUtils}.

Implicit Types (g : Globals) (st : LoopState) (line prefix : string).
Implicit Types (changed : gmap string (list (Z * Z))) (console : bool).

Lemma append_issue_length is_note p new_line (l : list string) :
  (length (snd (append_issue is_note p new_line l)) <= S (length l))%nat.
Proof.
  unfold append_issue. destruct is_note; simpl; [lia|].
  destruct (_ && _); [rewrite length_app; simpl|]; lia.
Qed.

Lemma append_issue_empty is_note new_line (l : list string) :
  snd (append_issue is_note "" new_line l) = l.
Proof. destruct is_note; reflexivity. Qed.

Lemma append_issue_note p new_line (l : list string) :
  snd (append_issue true p new_line l) = l.
Proof. reflexivity. Qed.

Lemma trims_empty (Htrims : trims) a b c d :
  fst (generate_description a b c d "") = "".
Proof.
  specialize (Htrims a b c d ""). simpl in Htrims.
  destruct (fst (generate_description a b c d "")); [reflexivity|].
  simpl in Htrims. lia.
Qed.

Lemma loop_body_kind (Htrims : trims) prefix changed console line st g c g' :
  loop_body cfg fs prefix changed console line st g = (inr c, g') ->
  match c with
  | Return issues => issues = list_of_issues st
  | Continue st' =>
      match classify prefix changed console line with
      | Skip => st' = st
      | Note => list_of_issues st' = list_of_issues st
      | Issue =>
          (length (list_of_issues st') <= S (length (list_of_issues st)))%nat
          /\ (per_issue_string st = "" ->
              list_of_issues st' = list_of_issues st)
      end
  end.
Proof.
  unfold loop_body, classify, bind, lift, ret, get, modify.
  destruct (Py.startswith line prefix && negb (is_excluded_dir line));
    [|intros; simplify_eq; reflexivity].
  destruct (extract_info line prefix)
    as [e|[[[[file_path is_note] a] b] description]]; [discriminate|].
  destruct console; simpl.
  - destruct (append_issue is_note (per_issue_string st) line
                (list_of_issues st)) as [p l] eqn:Ha.
    intros; simplify_eq/=.
    pose proof (append_issue_length is_note (per_issue_string st) line
                  (list_of_issues st)) as Hlen.
    destruct is_note.
    + pose proof (append_issue_note (per_issue_string st) line
                    (list_of_issues st)) as Hn.
      rewrite Ha in Hn. exact Hn.
    + rewrite Ha in Hlen. split; [exact Hlen|].
      intros Hp. rewrite Hp in Ha.
      pose proof (append_issue_empty false line (list_of_issues st)) as He.
      rewrite Ha in He. exact He.
  - destruct (is_part_of_pr_changes file_path a changed);
      [|intros; simplify_eq; reflexivity].
    destruct (generate_description is_note (was_note st) a description
                (per_issue_string st)) as [p d] eqn:Hd.
    destruct (generate_output cfg fs is_note file_path a b d g)
      as [[e|new_line] g2]; [discriminate|].
    destruct (check_for_char_limit cfg new_line g2);
      [|intros; simplify_eq; reflexivity].
    destruct (append_issue is_note p new_line (list_of_issues st))
      as [p' l] eqn:Ha.
    intros; simplify_eq/=.
    pose proof (append_issue_length is_note p new_line (list_of_issues st))
      as Hlen.
    destruct is_note.
    + pose proof (append_issue_note p new_line (list_of_issues st)) as Hn.
      rewrite Ha in Hn. exact Hn.
    + rewrite Ha in Hlen. split; [exact Hlen|].
      intros Hp. rewrite Hp in Hd.
      pose proof (trims_empty Htrims false (was_note st) a description) as Ht.
      rewrite Hd in Ht. simpl in Ht. subst p.
      pose proof (append_issue_empty false new_line (list_of_issues st)) as He.
      rewrite Ha in He. exact He.
Qed.

Lemma issue_lines_cons prefix changed console line lines :
  issue_lines prefix changed console (line :: lines)
  = ((if decide (classify prefix changed console line = Issue) then 1 else 0)
     + issue_lines prefix changed console lines)%nat.
Proof.
  unfold issue_lines. rewrite filter_cons. case_decide; reflexivity.
Qed.

(** Entries finalized inside the loop: at most one for each issue line. *)
Lemma for_loop_count (Htrims : trims) prefix changed console lines st g c g' :
  for_loop cfg fs prefix changed console lines st g = (inr c, g') ->
  (length (match c with
           | Continue st' => list_of_issues st'
           | Return issues => issues
           end)
   <= length (list_of_issues st) + issue_lines prefix changed console lines)%nat.
Proof.
  revert st g. induction lines as [|line lines IH]; intros st g H.
  - inversion H; subst. simpl. lia.
  - simpl in H. unfold bind in H. rewrite issue_lines_cons.
    destruct (loop_body cfg fs prefix changed console line st g)
      as [[e|[st1|issues]] g1] eqn:Hb; [discriminate| |].
    + pose proof (loop_body_kind Htrims _ _ _ _ _ _ _ _ Hb) as Hk.
      specialize (IH st1 g1 H). cbn iota beta in Hk.
      destruct (classify prefix changed console line); case_decide;
        try congruence.
      * subst st1. lia.
      * rewrite Hk in IH. lia.
      * destruct Hk as [Hk _]. lia.
    + inversion H; subst.
      pose proof (loop_body_kind Htrims _ _ _ _ _ _ _ _ Hb) as Hk.
      simpl in Hk. subst. lia.
Qed.

Lemma flush_length st :
  (length (flush st) <= S (length (list_of_issues st)))%nat.
Proof.
  unfold flush. destruct (_ && _); [rewrite length_app; simpl|]; lia.
Qed.

Lemma flush_empty st : per_issue_string st = "" -> flush st = list_of_issues st.
Proof. unfold flush. intros ->. reflexivity. Qed.

(** From a state that holds nothing yet, the first line that is not skipped
    decides whether an entry can come from a note alone. *)
Lemma for_loop_count_fresh (Htrims : trims) prefix changed console lines st
    g c g' :
  list_of_issues st = [] -> per_issue_string st = "" ->
  for_loop cfg fs prefix changed console lines st g = (inr c, g') ->
  (length (match c with
           | Continue st' => flush st'
           | Return issues => issues
           end)
   <= issue_lines prefix changed console lines
      + (if starts_with_note prefix changed console lines then 1 else 0))%nat.
Proof.
  revert st g. induction lines as [|line lines IH]; intros st g Hl Hp H.
  - inversion H; subst. rewrite flush_empty, Hl by assumption. simpl. lia.
  - simpl in H. unfold bind in H. rewrite issue_lines_cons.
    cbn [starts_with_note].
    destruct (loop_body cfg fs prefix changed console line st g)
      as [[e|[st1|issues]] g1] eqn:Hb; [discriminate| |].
    + pose proof (loop_body_kind Htrims _ _ _ _ _ _ _ _ Hb) as Hk.
      cbn iota beta in Hk.
      destruct (classify prefix changed console line) eqn:Hc; case_decide;
        try congruence.
      * subst st1. specialize (IH st g1 Hl Hp H). lia.
      * pose proof (for_loop_count Htrims _ _ _ _ _ _ _ _ H) as Hn.
        rewrite Hk, Hl in Hn. simpl in Hn.
        destruct c as [st'|issues]; [pose proof (flush_length st')|]; lia.
      * destruct Hk as [_ Hk]. specialize (Hk Hp).
        pose proof (for_loop_count Htrims _ _ _ _ _ _ _ _ H) as Hn.
        rewrite Hk, Hl in Hn. simpl in Hn.
        destruct c as [st'|issues]; [pose proof (flush_length st')|]; lia.
    + inversion H; subst.
      pose proof (loop_body_kind Htrims _ _ _ _ _ _ _ _ Hb) as Hk.
      simpl in Hk. subst. rewrite Hl. simpl. lia.
Qed.

(** C2, as the code has it: the number of entries returned is at most the
    number of issue lines (lines that are neither skipped nor notes), plus
    one when the first line that is not skipped is a note, which then
    forms an entry without an issue. *)
Theorem entries_bounded_by_issues tool_output prefix changed console g
    comment count g' :
  trims ->
  create_comment_for_output cfg fs tool_output prefix changed console g
    = (inr (comment, count), g') ->
  count <= Z.of_nat (issue_lines prefix changed console tool_output)
           + (if starts_with_note prefix changed console tool_output
              then 1 else 0).
Proof.
  intros Htrims H.
  unfold create_comment_for_output, finalized_issues, bind, ret in H.
  destruct (for_loop cfg fs prefix changed console tool_output initial g)
    as [[e|c] g1] eqn:Hl; [discriminate|].
  pose proof (for_loop_count_fresh Htrims _ _ _ _ initial _ _ _
                eq_refl eq_refl Hl) as Hn.
  destruct (starts_with_note prefix changed console tool_output);
    destruct c; unfold returned in H; simplify_eq/=; lia.
Qed.

End Counting.

Section Determinism.

Context (cfg : Config) (fs : string -> file) {U : SaUtils}.

Implicit Types (g : Globals) (st : LoopState) (line prefix : string).
Implicit Types (changed : gmap string (list (Z * Z))) (console : bool).

Lemma generate_output_cache_ok is_note file_path a b description g :
  cache_ok fs g ->
  cache_ok fs (snd (generate_output cfg fs is_note file_path a b description g)).
Proof.
  intros Hok. unfold generate_output, print.
  unfold bind, ret, get, raise, cached, modify, except_FileNotFoundError,
    open_readlines.
  repeat (case_match; simplify_eq/=; try assumption).
  all: intros path lines' Hl; simpl in Hl.
  all: try (apply Hok; exact Hl).
  all: destruct (decide (file_path = path)) as [->|Hne];
    [rewrite lookup_insert_eq in Hl; congruence
    |rewrite lookup_insert_ne in Hl by assumption; apply Hok; exact Hl].
Qed.

(** What [generate_output] returns does not depend on which files are
    already cached, as long as the cache agrees with the files. *)
Lemma generate_output_cache is_note file_path a b description g1 g2 :
  cache_ok fs g1 -> cache_ok fs g2 ->
  fst (generate_output cfg fs is_note file_path a b description g1)
  = fst (generate_output cfg fs is_note file_path a b description g2).
Proof.
  intros Hok1 Hok2. unfold generate_output, print.
  unfold bind, ret, get, raise, cached, modify, except_FileNotFoundError,
    open_readlines.
  destruct (negb is_note); [|reflexivity].
  destruct (negb (TARGET_REPO_NAME cfg =? REPO_NAME cfg)%string);
    [|reflexivity].
  simpl.
  assert (Hside : forall g, cache_ok fs g ->
    match FILES_WITH_ISSUES g !! file_path with
    | Some lines => fs file_path = Readable lines
    | None => True
    end).
  { intros g Hok. destruct (FILES_WITH_ISSUES g !! file_path) eqn:Hl;
      [exact (Hok _ _ Hl)|exact I]. }
  pose proof (Hside g1 Hok1) as H1. pose proof (Hside g2 Hok2) as H2.
  destruct (FILES_WITH_ISSUES g1 !! file_path) as [l1|] eqn:E1;
    destruct (FILES_WITH_ISSUES g2 !! file_path) as [l2|] eqn:E2;
    repeat case_bool_decide;
    repeat match goal with
           | H : ~ is_Some (Some _) |- _ => destruct H; eauto
           | H : is_Some None |- _ => destruct H; discriminate
           end;
    simpl; rewrite ?E1, ?E2;
    destruct (fs file_path) as [lines| |] eqn:Hfs; simplify_eq/=;
    rewrite ?E1, ?E2, ?lookup_insert_eq;
    try destruct (Py.slice _ _ _); reflexivity.
Qed.

Lemma generate_output_related is_note file_path a b description g1 g2 :
  related fs g1 g2 ->
  fst (generate_output cfg fs is_note file_path a b description g1)
  = fst (generate_output cfg fs is_note file_path a b description g2)
  /\ related fs (snd (generate_output cfg fs is_note file_path a b description g1))
       (snd (generate_output cfg fs is_note file_path a b description g2)).
Proof.
  intros (Hlen & Hok1 & Hok2). split; [|split_and!].
  - apply generate_output_cache; assumption.
  - rewrite !generate_output_length. exact Hlen.
  - apply generate_output_cache_ok, Hok1.
  - apply generate_output_cache_ok, Hok2.
Qed.

Lemma loop_body_related prefix changed console line st g1 g2 :
  related fs g1 g2 ->
  fst (loop_body cfg fs prefix changed console line st g1)
  = fst (loop_body cfg fs prefix changed console line st g2)
  /\ related fs (snd (loop_body cfg fs prefix changed console line st g1))
       (snd (loop_body cfg fs prefix changed console line st g2)).
Proof.
  intros Hrel. unfold loop_body, bind, lift, ret, get, modify.
  destruct (Py.startswith line prefix && negb (is_excluded_dir line));
    [|split; [reflexivity|exact Hrel]].
  destruct (extract_info line prefix)
    as [e|[[[[file_path is_note] a] b] description]];
    [split; [reflexivity|exact Hrel]|].
  destruct console.
  { destruct (append_issue _ _ _ _). split; [reflexivity|exact Hrel]. }
  destruct (is_part_of_pr_changes file_path a changed);
    [|split; [reflexivity|exact Hrel]].
  destruct (generate_description is_note (was_note st) a description
              (per_issue_string st)) as [p d].
  destruct (generate_output_related is_note file_path a b d g1 g2 Hrel)
    as [Hfst Hsnd].
  destruct (generate_output cfg fs is_note file_path a b d g1)
    as [[e1|new_line1] h1];
    destruct (generate_output cfg fs is_note file_path a b d g2)
      as [[e2|new_line2] h2]; simpl in Hfst, Hsnd; simplify_eq.
  { split; [reflexivity|exact Hsnd]. }
  unfold check_for_char_limit.
  destruct Hsnd as (Hlen & Hok1 & Hok2). rewrite Hlen.
  destruct (_ <? _).
  - destruct (append_issue _ _ _ _). simpl. split; [reflexivity|].
    split_and!; [simpl; lia|exact Hok1|exact Hok2].
  - simpl. split; [reflexivity|]. split_and!; [reflexivity|exact Hok1|exact Hok2].
Qed.

Lemma for_loop_related prefix changed console lines st g1 g2 :
  related fs g1 g2 ->
  fst (for_loop cfg fs prefix changed console lines st g1)
  = fst (for_loop cfg fs prefix changed console lines st g2)
  /\ related fs (snd (for_loop cfg fs prefix changed console lines st g1))
       (snd (for_loop cfg fs prefix changed console lines st g2)).
Proof.
  revert st g1 g2. induction lines as [|line lines IH]; intros st g1 g2 Hrel.
  - split; [reflexivity|exact Hrel].
  - simpl. unfold bind.
    destruct (loop_body_related prefix changed console line st g1 g2 Hrel)
      as [Hfst Hsnd].
    destruct (loop_body cfg fs prefix changed console line st g1)
      as [[e1|c1] h1];
      destruct (loop_body cfg fs prefix changed console line st g2)
        as [[e2|c2] h2]; simpl in Hfst, Hsnd; simplify_eq.
    + split; [reflexivity|exact Hsnd].
    + destruct c2 as [st'|issues].
      * apply IH, Hsnd.
      * split; [reflexivity|exact Hsnd].
Qed.

(** C9, as the code has it: two runs on the same stream with the same
    changed-files mapping return the same comment and count when they start
    from the same running length; which files are cached at the start makes
    no difference.  The running length is not reset between the runs of one
    process, so a second run in the same process is not covered. *)
Theorem same_start_same_output tool_output prefix changed console g1 g2 :
  CURRENT_COMMENT_LENGTH g1 = CURRENT_COMMENT_LENGTH g2 ->
  cache_ok fs g1 -> cache_ok fs g2 ->
  fst (create_comment_for_output cfg fs tool_output prefix changed console g1)
  = fst (create_comment_for_output cfg fs tool_output prefix changed console g2).
Proof.
  intros Hlen Hok1 Hok2.
  unfold create_comment_for_output, finalized_issues, bind, ret.
  destruct (for_loop_related prefix changed console tool_output initial g1 g2
              (conj Hlen (conj Hok1 Hok2))) as [Hfst _].
  destruct (for_loop cfg fs prefix changed console tool_output initial g1)
    as [[e1|c1] h1];
    destruct (for_loop cfg fs prefix changed console tool_output initial g2)
      as [[e2|c2] h2]; simpl in Hfst; simplify_eq; [reflexivity|].
  destruct c2; reflexivity.
Qed.

End Determinism.

Section Formatter.

Context (cfg : Config).

Lemma app_assoc_s (s t u : string) : (s +:+ t) +:+ u = s +:+ (t +:+ u).
Proof.
  induction s as [|c s IH]; [reflexivity|].
  change (String c s +:+ t) with (String c (s +:+ t)).
  change (String c (s +:+ t) +:+ u) with (String c ((s +:+ t) +:+ u)).
  rewrite IH. reflexivity.
Qed.

Lemma app_nil_r_s (s : string) : s +:+ "" = s.
Proof.
  induction s as [|c s IH]; [reflexivity|].
  change (String c s +:+ "") with (String c (s +:+ "")).
  rewrite IH. reflexivity.
Qed.

(** C6, as the code has it: with no issue at all the body is the banner,
    and otherwise the heading, the section of cppcheck, the divider and the
    section of clang-tidy, a section being present exactly for a tool with
    a count above zero and labelled "1 issue" or "N issues"; in both cases
    the truncation notice follows when the running length stands at the
    maximum, and only then. *)
Theorem comment_body_shape cppcheck_comment clang_tidy_comment
    cppcheck_issues_found clang_tidy_issues_found g :
  0 <= cppcheck_issues_found -> 0 <= clang_tidy_issues_found ->
  (cppcheck_comment = "" <-> cppcheck_issues_found = 0) ->
  (clang_tidy_comment = "" <-> clang_tidy_issues_found = 0) ->
  prepare_comment_body cfg cppcheck_comment clang_tidy_comment
    cppcheck_issues_found clang_tidy_issues_found g
  = (if cppcheck_issues_found + clang_tidy_issues_found =? 0
     then no_issues_banner cfg
     else heading cfg
          +:+ section "cppcheck" cppcheck_issues_found cppcheck_comment
                " </details>"
          +:+ divider
          +:+ section "clang-tidy" clang_tidy_issues_found clang_tidy_comment
                (" </details><br>" +:+ nl))
    +:+ (if CURRENT_COMMENT_LENGTH g =? COMMENT_MAX_SIZE cfg
         then truncation_notice cfg else "").
Proof.
  intros H1 H2 Hc1 Hc2. unfold prepare_comment_body.
  assert (Hlen : forall (c : string) n, 0 <= n -> (c = "" <-> n = 0) ->
            (0 <? Py.len c) = (0 <? n)).
  { intros c n Hn Hc. destruct c as [|a c].
    - destruct Hc as [Hc _]. rewrite Hc by reflexivity. reflexivity.
    - transitivity true.
      + apply Z.ltb_lt. unfold Py.len. simpl String.length. lia.
      + symmetry. apply Z.ltb_lt.
        destruct (Z.eq_dec n 0) as [Hz|Hz]; [|lia].
        apply Hc in Hz. discriminate. }
  rewrite (Hlen _ _ H1 Hc1), (Hlen _ _ H2 Hc2).
  assert (Hpl : forall n, 0 < n ->
            (if 1 <? n then "issues" else "issue")
            = (if n =? 1 then "issue" else "issues")).
  { intros n Hn. destruct (Z.ltb_spec 1 n), (Z.eqb_spec n 1); (reflexivity || lia). }
  unfold section, pluralized, truncation_notice.
  destruct (Z.eqb_spec cppcheck_issues_found 0) as [->|Hn1];
    destruct (Z.eqb_spec clang_tidy_issues_found 0) as [->|Hn2]; simpl andb;
    [ change (0 + 0 =? 0) with true
    | replace (0 + clang_tidy_issues_found =? 0) with false
        by (symmetry; apply Z.eqb_neq; lia)
    | replace (cppcheck_issues_found + 0 =? 0) with false
        by (symmetry; apply Z.eqb_neq; lia)
    | replace (cppcheck_issues_found + clang_tidy_issues_found =? 0) with false
        by (symmetry; apply Z.eqb_neq; lia) ];
    cbn iota;
    repeat match goal with
    | |- context [0 <? 0] => change (0 <? 0) with false; cbn iota
    | |- context [0 <? ?n] =>
        replace (0 <? n) with true by (symmetry; apply Z.ltb_lt; lia);
        rewrite (Hpl n) by lia; cbn iota
    end;
    destruct (CURRENT_COMMENT_LENGTH g =? COMMENT_MAX_SIZE cfg);
    unfold no_issues_banner, heading, divider;
    rewrite ?app_assoc_s, ?app_nil_r_s; reflexivity.
Qed.

End Formatter.

Section Entries.

Context (cfg : Config) (fs : string -> file) {U : SaUtils}.

Implicit Types (g : Globals) (st : LoopState) (line prefix : string).
Implicit Types (changed : gmap string (list (Z * Z))) (console : bool).

(** *** No entry is empty, so the joined text is empty only for no entry *)

Lemma append_issue_nonempty is_note p new_line (l : list string) :
  Forall (fun e => e <> "") l ->
  Forall (fun e => e <> "") (snd (append_issue is_note p new_line l)).
Proof.
  intros Hl. unfold append_issue. destruct is_note; simpl; [exact Hl|].
  destruct (Z.ltb_spec 0 (Py.len p)); simpl; [|exact Hl].
  destruct (negb _); [|exact Hl].
  apply Forall_app. split; [exact Hl|].
  apply Forall_singleton. intros ->. unfold Py.len in *. simpl in *. lia.
Qed.

Lemma loop_body_nonempty prefix changed console line st g c g' :
  Forall (fun e => e <> "") (list_of_issues st) ->
  loop_body cfg fs prefix changed console line st g = (inr c, g') ->
  Forall (fun e => e <> "")
    (match c with Continue st' => list_of_issues st' | Return l => l end).
Proof.
  intros Hl H. unfold loop_body, bind, lift, ret, get, modify in H.
  repeat case_match; simplify_eq/=; try assumption;
    match goal with
    | Ha : append_issue ?n ?p ?x ?l = _ |- _ =>
        pose proof (append_issue_nonempty n p x l Hl) as Hf;
        rewrite Ha in Hf; exact Hf
    end.
Qed.

Lemma for_loop_nonempty prefix changed console lines st g c g' :
  Forall (fun e => e <> "") (list_of_issues st) ->
  for_loop cfg fs prefix changed console lines st g = (inr c, g') ->
  Forall (fun e => e <> "")
    (match c with Continue st' => flush st' | Return l => l end).
Proof.
  revert st g. induction lines as [|line lines IH]; intros st g Hl H.
  - inversion H; subst.
    change (flush st) with
      (snd (append_issue false (per_issue_string st) "" (list_of_issues st))).
    apply append_issue_nonempty, Hl.
  - simpl in H. unfold bind in H.
    destruct (loop_body cfg fs prefix changed console line st g)
      as [[e|[st1|issues]] g1] eqn:Hb; [discriminate| |];
      pose proof (loop_body_nonempty _ _ _ _ _ _ _ _ Hl Hb) as Hf.
    + exact (IH _ _ Hf H).
    + inversion H; subst. exact Hf.
Qed.

Lemma join_empty (l : list string) :
  Forall (fun e => e <> "") l -> Py.join nl l = "" <-> l = [].
Proof.
  intros Hl. split; [|intros ->; reflexivity].
  destruct Hl as [|e l He Hl]; [reflexivity|].
  destruct e as [|c e]; [congruence|].
  destruct l; discriminate.
Qed.

(** What [create_comment_for_output] returns is of the shape that
    [prepare_comment_body] is given: the count is not negative, and the
    text is empty exactly when the count is zero. *)
Lemma create_comment_for_output_shape tool_output prefix changed console g
    comment count g' :
  create_comment_for_output cfg fs tool_output prefix changed console g
    = (inr (comment, count), g') ->
  0 <= count /\ (comment = "" <-> count = 0).
Proof.
  intros H.
  unfold create_comment_for_output, finalized_issues, bind, ret in H.
  destruct (for_loop cfg fs prefix changed console tool_output initial g)
    as [[e|c] g1] eqn:Hl; [discriminate|].
  pose proof (for_loop_nonempty _ _ _ _ initial _ _ _ (Forall_nil_2 _) Hl) as Hf.
  assert (Hshape : forall l : list string, Forall (fun e => e <> "") l ->
            0 <= Z.of_nat (length l)
            /\ (Py.join nl l = "" <-> Z.of_nat (length l) = 0)).
  { intros l Hne. split; [lia|]. rewrite (join_empty l Hne).
    destruct l; simpl; split; (congruence || lia). }
  destruct c; unfold returned in H; simplify_eq/=; apply Hshape, Hf.
Qed.

(** *** The file cache of [generate_output] *)

(** A file that is cached is not opened again. *)
Lemma generate_output_cached is_note file_path a b description g :
  is_Some (FILES_WITH_ISSUES g !! file_path) ->
  trace (snd (generate_output cfg fs is_note file_path a b description g))
  = trace g.
Proof.
  intros Hc. unfold generate_output, print.
  unfold bind, ret, get, raise, cached, modify, except_FileNotFoundError,
    open_readlines.
  destruct (negb is_note); [|reflexivity].
  destruct (negb (TARGET_REPO_NAME cfg =? REPO_NAME cfg)%string);
    [|reflexivity].
  simpl. rewrite bool_decide_eq_true_2 by exact Hc.
  repeat (case_match; simplify_eq/=; try reflexivity).
Qed.

(** A file from which an excerpt was rendered is cached afterwards. *)
Lemma generate_output_caches file_path a b description g new_line g' :
  TARGET_REPO_NAME cfg <> REPO_NAME cfg ->
  generate_output cfg fs false file_path a b description g = (inr new_line, g') ->
  is_Some (FILES_WITH_ISSUES g' !! file_path).
Proof.
  intros Hrepo. apply String.eqb_neq in Hrepo.
  unfold generate_output, print.
  unfold bind, ret, get, raise, cached, modify, except_FileNotFoundError,
    open_readlines.
  rewrite Hrepo. simpl.
  repeat (case_match; simplify_eq/=); intros; simplify_eq/=; eauto.
Qed.

(** For a range that holds at least one line the excerpt is the cached
    lines [file_line_start] to [file_line_end - 1], the first of them with
    its last character replaced by the marker and a line feed. *)
Lemma generate_output_excerpt file_path a b description g lines first rest :
  TARGET_REPO_NAME cfg <> REPO_NAME cfg ->
  FILES_WITH_ISSUES g !! file_path = Some lines ->
  Py.slice lines (a - 1) (b - 1) = first :: rest ->
  generate_output cfg fs false file_path a b description g
  = (inr (nl +:+ nl +:+ "------"
          +:+ nl +:+ nl +:+ " <b><i>Issue found in file</b></i> ["
          +:+ REPO_NAME cfg +:+ "/" +:+ file_path +:+ "]("
          +:+ ("https://github.com/" +:+ REPO_NAME cfg +:+ "/blob/"
               +:+ SHA cfg +:+ "/" +:+ file_path +:+ "#L" +:+ Py.str a)
          +:+ ")" +:+ nl
          +:+ "```cpp" +:+ nl
          +:+ Py.concat ((Py.drop_last first +:+ " <---- HERE" +:+ nl) :: rest)
          +:+ nl +:+ "``` " +:+ nl
          +:+ description +:+ " <br>" +:+ nl), g).
Proof.
  intros Hrepo Hc Hs. apply String.eqb_neq in Hrepo.
  unfold generate_output, bind, ret, get, cached.
  rewrite Hrepo. simpl.
  rewrite bool_decide_eq_true_2 by (rewrite Hc; eauto).
  simpl. rewrite Hc, Hs. reflexivity.
Qed.

(** An empty range: [file_line_end] equal to [file_line_start]. *)
Lemma slice_empty_range {A : Type} (l : list A) (a : Z) : Py.slice l a a = [].
Proof. unfold Py.slice. rewrite Nat.sub_diag. reflexivity. Qed.

(** Whatever the file holds, an excerpt for a range that ends where it
    starts is not rendered: the call raises. *)
Lemma generate_output_empty_range file_path a description g lines :
  TARGET_REPO_NAME cfg <> REPO_NAME cfg ->
  FILES_WITH_ISSUES g !! file_path = Some lines ->
  generate_output cfg fs false file_path a a description g
  = (inl Py.IndexError, g).
Proof.
  intros Hrepo Hc. apply String.eqb_neq in Hrepo.
  unfold generate_output, bind, ret, get, cached, raise.
  rewrite Hrepo. simpl.
  rewrite bool_decide_eq_true_2 by (rewrite Hc; eauto).
  simpl. rewrite Hc, slice_empty_range. reflexivity.
Qed.

(** A file that does not exist: the warning is printed, and the lookup in
    the cache that follows raises. *)
Lemma generate_output_missing file_path a b description g :
  TARGET_REPO_NAME cfg <> REPO_NAME cfg ->
  FILES_WITH_ISSUES g !! file_path = None ->
  fs file_path = Missing ->
  generate_output cfg fs false file_path a b description g
  = (inl Py.KeyError,
     log (Printed ("Error: The file '" +:+ file_path +:+ "' was not found."))
       (log (Opened file_path) g)).
Proof.
  intros Hrepo Hc Hfs. apply String.eqb_neq in Hrepo.
  unfold generate_output, print.
  unfold bind, ret, get, cached, raise, modify, except_FileNotFoundError,
    open_readlines.
  rewrite Hrepo. simpl.
  rewrite bool_decide_eq_false_2 by (rewrite Hc; apply is_Some_None).
  simpl. rewrite Hfs. simpl. rewrite Hc. reflexivity.
Qed.

End Entries.

Section Cache.

Context (cfg : Config) (fs : string -> file) {U : SaUtils}.

Implicit Types (g : Globals) (st : LoopState) (line prefix : string).
Implicit Types (changed : gmap string (list (Z * Z))) (console : bool).

(** *** Each file is opened at most once *)

Lemma opened_log_opened path g : opened (log (Opened path) g) = path :: opened g.
Proof. reflexivity. Qed.

Lemma opened_log_printed text g : opened (log (Printed text) g) = opened g.
Proof. reflexivity. Qed.





End Cache.

(** * Executions *)

(** ** The built-ins, against the behaviour of Python *)

Example py_remove_all : Py.remove "/w" "/w/a.cc: see /w/b.h" = "/a.cc: see /b.h".
Proof. reflexivity. Qed.

Example py_remove_overlap : Py.remove "aa" "aaab" = "ab".
Proof. reflexivity. Qed.

Example py_slice_ex :
  Py.slice ["a"; "b"; "c"; "d"] 1 3 = ["b"; "c"]
  /\ Py.slice ["a"; "b"; "c"; "d"] 2 2 = []
  /\ Py.slice ["a"; "b"; "c"; "d"] (-1) 3 = []
  /\ Py.slice ["a"; "b"; "c"; "d"] (-2) 9 = ["c"; "d"].
Proof. repeat split; reflexivity. Qed.

Example py_int_ex :
  Py.int " 12 " = inr 12 /\ Py.int "-7" = inr (-7) /\ Py.int "1_000" = inr 1000
  /\ Py.int "" = inl Py.ValueError /\ Py.int "1__0" = inl Py.ValueError
  /\ Py.int "12a" = inl Py.ValueError /\ Py.int "_1" = inl Py.ValueError.
Proof. repeat split; reflexivity. Qed.

Example py_str_ex : Py.str 0 = "0" /\ Py.str 1234 = "1234" /\ Py.str (-5) = "-5".
Proof. repeat split; reflexivity. Qed.

(** ** The helpers modelled from the specification *)

Lemma demo_trims : trims (U := Demo.utils).
Proof. intros is_note was_note a d s. simpl. lia. Qed.

Lemma fresh_cache_ok : cache_ok Demo.fs Demo.fresh.
Proof. intros path lines H. simpl in H. rewrite lookup_empty in H. discriminate. Qed.

Lemma warm_cache_ok : cache_ok Demo.fs Demo.warm.
Proof.
  intros path lines H. simpl in H.
  destruct (decide ("a.cc" = path)) as [<-|Hne].
  - rewrite lookup_insert_eq in H. inversion H. reflexivity.
  - rewrite lookup_insert_ne, lookup_empty in H by assumption. discriminate.
Qed.

(** The range filter on the example of the specification. *)
Example range_filter_ex :
  SpecUtils.is_part_of_pr_changes "a.cc" 15 {[ "a.cc" := [(10, 20)] ]} = true
  /\ SpecUtils.is_part_of_pr_changes "a.cc" 25 {[ "a.cc" := [(10, 20)] ]} = false
  /\ SpecUtils.is_part_of_pr_changes "a.cc" 15 ∅ = true.
Proof. repeat split; vm_compute; reflexivity. Qed.

(** ** The parser *)

(** C8: [str.replace] removes the prefix wherever it occurs, so a
    description that mentions a path under the prefix comes out changed:
    here [/w/b.h] has become [/b.h]. *)
Theorem prefix_removed_from_description (U : SaUtils) :
  extract_info "/w/a.cc:1:5: error: see /w/b.h" "/w"
  = inr ("a.cc", false, 1, get_file_line_end "a.cc" 1, "error: see /b.h").
Proof. reflexivity. Qed.

(** The leading strip takes every leading separator, not one. *)
Example leading_separators_stripped (U : SaUtils) :
  extract_info "/w//a.cc:1:5: error: x" "/w"
  = inr ("a.cc", false, 1, get_file_line_end "a.cc" 1, "error: x").
Proof. reflexivity. Qed.

(** ** The excerpt *)

(** C3: the diagnostic is against a file that does not exist.  The warning
    is printed, then the lookup in the cache raises [KeyError]: the run
    ends there and the diagnostic that follows is never read. *)
Theorem missing_file_aborts_run :
  generate_output (Demo.cfg_fork 1000) Demo.fs false "gone.cc" 1 1
    "error: first" Demo.fresh
  = (inl Py.KeyError,
     log (Printed "Error: The file 'gone.cc' was not found.")
       (log (Opened "gone.cc") Demo.fresh))
  /\ create_comment_for_output (U := Demo.utils) (Demo.cfg_fork 1000) Demo.fs
       ["/w/gone.cc:1:5: error: first"; "/w/a.cc:1:5: error: second"]
       "/w" ∅ false Demo.fresh
     = (inl Py.KeyError,
        log (Printed "Error: The file 'gone.cc' was not found.")
          (log (Opened "gone.cc") Demo.fresh)).
Proof. split; vm_compute; reflexivity. Qed.

(** A file that exists and cannot be read is not handled at all. *)
Example unreadable_file_aborts_run :
  fst (generate_output (Demo.cfg_fork 1000) Demo.fs false "locked.cc" 1 1
         "error: first" Demo.fresh)
  = inl Py.OSError.
Proof. reflexivity. Qed.

(** C4: the diagnostic is against line 2 of [a.cc], a statement that ends
    on that line, so that the range of the excerpt ends where it starts.
    The excerpt has no line to mark and the call raises [IndexError];
    so does the run. *)
Theorem single_line_excerpt_raises :
  generate_output (Demo.cfg_fork 1000) Demo.fs false "a.cc" 2 2
    "error: second" Demo.fresh
  = (inl Py.IndexError, log (Opened "a.cc") Demo.warm)
  /\ extract_info (U := Demo.utils) "/w/a.cc:2:5: error: second" "/w"
     = inr ("a.cc", false, 2, 2, "error: second")
  /\ fst (create_comment_for_output (U := Demo.utils) (Demo.cfg_fork 1000)
            Demo.fs ["/w/a.cc:2:5: error: second"] "/w" ∅ false Demo.fresh)
     = inl Py.IndexError.
Proof. repeat split; vm_compute; reflexivity. Qed.

(** With a range of one line or more the block is rendered: the first line
    carries the marker, the other lines are as in the file, and the file is
    opened once for the two diagnostics. *)
Example excerpt_rendered :
  let r1 :=
    generate_output (Demo.cfg_fork 1000) Demo.fs false "a.cc" 1 3
      "error: first" Demo.fresh in
  let r2 :=
    generate_output (Demo.cfg_fork 1000) Demo.fs false "a.cc" 2 3
      "error: second" (snd r1) in
  fst r1
  = inr (nl +:+ nl +:+ "------" +:+ nl +:+ nl
         +:+ " <b><i>Issue found in file</b></i> [fork/app/a.cc]"
         +:+ "(https://github.com/fork/app/blob/abc/a.cc#L1)" +:+ nl
         +:+ "```cpp" +:+ nl
         +:+ "int f(int x, <---- HERE" +:+ nl
         +:+ "      int y);" +:+ nl
         +:+ nl +:+ "``` " +:+ nl
         +:+ "error: first <br>" +:+ nl)
  /\ trace (snd r2) = [Opened "a.cc"].
Proof. split; vm_compute; reflexivity. Qed.

(** ** The aggregator *)

Lemma budget_exceeded_returns_finalized_witness :
  create_comment_for_output (U := Demo.utils) (Demo.cfg 100) Demo.fs
    (["/w/a.cc:1:5: error: first"]
     ++ "/w/a.cc:2:5: error: second" :: ["/w/a.cc:2:7: error: third"])
    "/w" ∅ false Demo.fresh
  = (inr (returned []), set_length 100 (set_length 68 Demo.fresh)).
Proof.
  eapply (budget_exceeded_returns_finalized (Demo.cfg 100) Demo.fs
            (U := Demo.utils) "/w" ∅ ["/w/a.cc:1:5: error: first"]
            "/w/a.cc:2:5: error: second" ["/w/a.cc:2:7: error: third"]
            {| list_of_issues := [];
               per_issue_string :=
                 nl +:+ nl
                 +:+ "https://github.com/fork/app/blob/abc/a.cc#L1-L2 error: first <br>"
                 +:+ nl;
               was_note := false |}
            Demo.fresh (set_length 68 Demo.fresh)
            "a.cc" false 2 2 "error: second"
            (nl +:+ nl
             +:+ "https://github.com/fork/app/blob/abc/a.cc#L2-L2 error: second <br>"
             +:+ nl)
            (set_length 68 Demo.fresh));
    vm_compute; (reflexivity || discriminate).
Defined.

Lemma passing_line_is_charged_witness :
  let first :=
    nl +:+ nl
    +:+ "https://github.com/fork/app/blob/abc/a.cc#L1-L2 error: first <br>"
    +:+ nl in
  let st :=
    {| list_of_issues := [first]; per_issue_string := first;
       was_note := false |} in
  exists st' g',
    loop_body (U := Demo.utils) (Demo.cfg 1000) Demo.fs "/w" ∅ false
      "/w/a.cc:2:5: error: other" st (set_length 136 Demo.fresh)
    = (inr (Continue st'), g')
    /\ CURRENT_COMMENT_LENGTH g' = 136 + 68
    /\ (false = false -> first ∈ [first] -> list_of_issues st' = [first])
    /\ forall post r g'',
         for_loop (U := Demo.utils) (Demo.cfg 1000) Demo.fs "/w" ∅ false
           post st' g' = (r, g'') ->
         136 + 68 <= CURRENT_COMMENT_LENGTH g''.
Proof.
  apply (passing_line_is_charged (Demo.cfg 1000) Demo.fs (U := Demo.utils)
           "/w" ∅ "/w/a.cc:2:5: error: other"
           {| list_of_issues :=
                [nl +:+ nl
                 +:+ "https://github.com/fork/app/blob/abc/a.cc#L1-L2 error: first <br>"
                 +:+ nl];
              per_issue_string :=
                nl +:+ nl
                +:+ "https://github.com/fork/app/blob/abc/a.cc#L1-L2 error: first <br>"
                +:+ nl;
              was_note := false |}
           (set_length 136 Demo.fresh)
           "a.cc" false 2 2 "error: other"
           (nl +:+ nl
            +:+ "https://github.com/fork/app/blob/abc/a.cc#L2-L2 error: other <br>"
            +:+ nl)
           (set_length 136 Demo.fresh));
    vm_compute; reflexivity.
Defined.

(** The same diagnostic reported twice, then another one: the second copy
    is dropped from the output, and the running length has been charged
    for it all the same. *)
Example duplicate_consumes_budget :
  let r :=
    finalized_issues (U := Demo.utils) (Demo.cfg 1000) Demo.fs
      ["/w/a.cc:1:5: error: first"; "/w/a.cc:1:5: error: first";
       "/w/a.cc:2:5: error: other"] "/w" ∅ false Demo.fresh in
  exists first other,
    fst r = inr [first; other]
    /\ total_length [first; other] = 68 + 68
    /\ CURRENT_COMMENT_LENGTH (snd r) = 68 + 68 + 68.
Proof. eexists _, _. vm_compute. repeat split; reflexivity. Qed.

(** Note grouping, on the example of the specification. *)
Example note_grouping :
  fst (finalized_issues (U := Demo.utils) (Demo.cfg 1000) Demo.fs
         ["/w/a.cc:1:5: error: first"; "/w/a.cc:1:5: note: one";
          "/w/a.cc:1:5: note: two"; "/w/a.cc:2:5: error: second"]
         "/w" ∅ true Demo.fresh)
  = inr ["/w/a.cc:1:5: error: first" +:+ "/w/a.cc:1:5: note: one"
         +:+ "/w/a.cc:1:5: note: two";
         "/w/a.cc:2:5: error: second"].
Proof. vm_compute. reflexivity. Qed.

(** The same issue at two places of the stream gives one entry. *)
Example dedup_run :
  fst (finalized_issues (U := Demo.utils) (Demo.cfg 1000) Demo.fs
         ["/w/a.cc:1:5: error: first"; "/w/a.cc:2:5: error: second";
          "/w/a.cc:1:5: error: first"]
         "/w" ∅ true Demo.fresh)
  = inr ["/w/a.cc:1:5: error: first"; "/w/a.cc:2:5: error: second"].
Proof. vm_compute. reflexivity. Qed.

(** C2 fails for a stream that opens with a note: the note becomes an
    entry, and the stream has no issue line. *)
Lemma orphan_note_is_an_entry :
  fst (create_comment_for_output (U := Demo.utils) (Demo.cfg 1000) Demo.fs
         ["/w/a.cc:1:5: note: orphan"] "/w" Demo.changed false Demo.fresh)
  = inr ("note: orphan", 1)
  /\ issue_lines (U := Demo.utils) "/w" Demo.changed false
       ["/w/a.cc:1:5: note: orphan"] = 0%nat
  /\ fst (create_comment_for_output (U := Demo.utils) (Demo.cfg 1000) Demo.fs
            ["/w/a.cc:1:5: note: orphan"] "/w" Demo.changed true Demo.fresh)
     = inr ("/w/a.cc:1:5: note: orphan", 1)
  /\ issue_lines (U := Demo.utils) "/w" Demo.changed true
       ["/w/a.cc:1:5: note: orphan"] = 0%nat.
Proof. repeat split; vm_compute; reflexivity. Qed.

Lemma entries_bounded_by_issues_witness :
  2 <= Z.of_nat (issue_lines (U := Demo.utils) "/w" Demo.changed false
                   ["/w/a.cc:1:5: error: first"; "/w/a.cc:1:5: note: one";
                    "/w/a.cc:2:5: error: second"; "/w/a.cc:9:1: error: far"])
       + (if starts_with_note (U := Demo.utils) "/w" Demo.changed false
               ["/w/a.cc:1:5: error: first"; "/w/a.cc:1:5: note: one";
                "/w/a.cc:2:5: error: second"; "/w/a.cc:9:1: error: far"]
          then 1 else 0).
Proof.
  eapply (entries_bounded_by_issues (Demo.cfg 1000) Demo.fs (U := Demo.utils)
            ["/w/a.cc:1:5: error: first"; "/w/a.cc:1:5: note: one";
             "/w/a.cc:2:5: error: second"; "/w/a.cc:9:1: error: far"]
            "/w" Demo.changed false Demo.fresh _ 2 _ demo_trims).
  vm_compute. reflexivity.
Defined.

(** The stream first, second, first, third: when the line of the third
    issue is taken up, the pending entry is the second copy of the first;
    the run returns first, second, third. *)
Lemma duplicates_dropped_witness :
  fst (finalized_issues (U := Demo.utils) (Demo.cfg 1000) Demo.fs
         ["/w/a.cc:1:5: error: first"; "/w/a.cc:2:5: error: second";
          "/w/a.cc:1:5: error: first"; "/w/a.cc:3:5: error: third"]
         "/w" ∅ true Demo.fresh)
  = inr ["/w/a.cc:1:5: error: first"; "/w/a.cc:2:5: error: second";
         "/w/a.cc:3:5: error: third"]
  /\ copies "/w/a.cc:1:5: error: first"
       ["/w/a.cc:1:5: error: first"; "/w/a.cc:2:5: error: second";
        "/w/a.cc:3:5: error: third"] = 1%nat.
Proof.
  split; [vm_compute; reflexivity|].
  edestruct (proj1 (proj2 (proj2
               (duplicates_dropped (Demo.cfg 1000) Demo.fs (U := Demo.utils)
                  "/w" ∅ true)))
               ["/w/a.cc:1:5: error: first"; "/w/a.cc:2:5: error: second";
                "/w/a.cc:1:5: error: first"]
               "/w/a.cc:3:5: error: third" [] Demo.fresh)
    as [Hc _].
  - vm_compute. reflexivity.
  - vm_compute. reflexivity.
  - vm_compute. reflexivity.
  - vm_compute. reflexivity.
  - left. reflexivity.
  - vm_compute. reflexivity.
  - vm_compute. reflexivity.
  - discriminate.
  - exact Hc.
Defined.

(** C7 fails in console mode, where no budget is applied: one line of 25
    characters is returned under a maximum of 10. *)
Lemma console_mode_ignores_budget :
  fst (finalized_issues (U := Demo.utils) (Demo.cfg 10) Demo.fs
         ["/w/a.cc:1:5: error: first"] "/w" ∅ true Demo.fresh)
  = inr ["/w/a.cc:1:5: error: first"]
  /\ COMMENT_MAX_SIZE (Demo.cfg 10)
     < total_length (take 1 ["/w/a.cc:1:5: error: first"]).
Proof. split; vm_compute; reflexivity. Qed.

Lemma budget_law_witness :
  (forall console pre post st g1 r g2,
     for_loop (U := Demo.utils) (Demo.cfg 1000) Demo.fs "/w" Demo.changed
       console pre initial Demo.fresh = (inr (Continue st), g1) ->
     for_loop (U := Demo.utils) (Demo.cfg 1000) Demo.fs "/w" Demo.changed
       console post st g1 = (r, g2) ->
     CURRENT_COMMENT_LENGTH Demo.fresh <= CURRENT_COMMENT_LENGTH g1
     /\ CURRENT_COMMENT_LENGTH g1 <= CURRENT_COMMENT_LENGTH g2)
  /\ (forall tool_output l g',
        finalized_issues (U := Demo.utils) (Demo.cfg 1000) Demo.fs tool_output
          "/w" Demo.changed false Demo.fresh = (inr l, g') ->
        forall k, total_length (take k l) <= COMMENT_MAX_SIZE (Demo.cfg 1000))
  /\ (forall console pre post l g1,
        for_loop (U := Demo.utils) (Demo.cfg 1000) Demo.fs "/w" Demo.changed
          console pre initial Demo.fresh = (inr (Return l), g1) ->
        CURRENT_COMMENT_LENGTH g1 = COMMENT_MAX_SIZE (Demo.cfg 1000)
        /\ finalized_issues (U := Demo.utils) (Demo.cfg 1000) Demo.fs
             (pre ++ post) "/w" Demo.changed console Demo.fresh
           = (inr l, g1)).
Proof.
  apply (budget_law (Demo.cfg 1000) Demo.fs (U := Demo.utils) "/w"
           Demo.changed Demo.fresh demo_trims).
  simpl. lia.
Defined.

(** C9 fails for two runs of one process: the first run leaves the running
    length at 68, and the second, on the same stream and mapping, hits the
    maximum at its first line and returns nothing. *)
Lemma second_run_differs :
  let run :=
    create_comment_for_output (U := Demo.utils) (Demo.cfg 100) Demo.fs
      ["/w/a.cc:1:5: error: first"] "/w" Demo.changed false in
  fst (run Demo.fresh)
  = inr (nl +:+ nl
         +:+ "https://github.com/fork/app/blob/abc/a.cc#L1-L2 error: first <br>"
         +:+ nl, 1)
  /\ fst (run (snd (run Demo.fresh))) = inr ("", 0).
Proof. split; vm_compute; reflexivity. Qed.

Lemma same_start_same_output_witness :
  fst (create_comment_for_output (U := Demo.utils) (Demo.cfg_fork 1000)
         Demo.fs ["/w/a.cc:1:5: error: first"] "/w" Demo.changed false
         Demo.fresh)
  = fst (create_comment_for_output (U := Demo.utils) (Demo.cfg_fork 1000)
           Demo.fs ["/w/a.cc:1:5: error: first"] "/w" Demo.changed false
           Demo.warm).
Proof.
  apply (same_start_same_output (Demo.cfg_fork 1000) Demo.fs (U := Demo.utils)
           ["/w/a.cc:1:5: error: first"] "/w" Demo.changed false
           Demo.fresh Demo.warm).
  - reflexivity.
  - exact fresh_cache_ok.
  - exact warm_cache_ok.
Defined.

(** ** The formatter *)

(** C6 fails when nothing fits the budget: both runs return no entry, the
    running length stands at the maximum, and the body is the banner
    followed by the truncation notice. *)
Lemma banner_with_truncation_notice :
  let run :=
    create_comment_for_output (U := Demo.utils) (Demo.cfg 10) Demo.fs
      ["/w/a.cc:1:5: error: first"] "/w" Demo.changed false in
  let cppcheck := run Demo.fresh in
  let clang_tidy := run (snd cppcheck) in
  let body :=
    prepare_comment_body (Demo.cfg 10) "" "" 0 0 (snd clang_tidy) in
  fst cppcheck = inr ("", 0) /\ fst clang_tidy = inr ("", 0)
  /\ body = no_issues_banner (Demo.cfg 10) +:+ truncation_notice (Demo.cfg 10)
  /\ body <> no_issues_banner (Demo.cfg 10).
Proof. repeat split; vm_compute; (reflexivity || discriminate). Qed.

Lemma comment_body_shape_witness :
  prepare_comment_body (Demo.cfg 1000) "first" "" 1 0 Demo.fresh
  = (if 1 + 0 =? 0
     then no_issues_banner (Demo.cfg 1000)
     else heading (Demo.cfg 1000)
          +:+ section "cppcheck" 1 "first" " </details>"
          +:+ divider
          +:+ section "clang-tidy" 0 "" (" </details><br>" +:+ nl))
    +:+ (if CURRENT_COMMENT_LENGTH Demo.fresh =? COMMENT_MAX_SIZE (Demo.cfg 1000)
         then truncation_notice (Demo.cfg 1000) else "").
Proof.
  apply (comment_body_shape (Demo.cfg 1000) "first" "" 1 0 Demo.fresh).
  - lia.
  - lia.
  - split; discriminate.
  - split; reflexivity.
Defined.

(** The body for one issue of cppcheck and three of clang-tidy. *)
Example comment_body_ex :
  prepare_comment_body (Demo.cfg 1000) "A" "B" 1 3 Demo.fresh
  = "## <p align=" +:+ dq +:+ "center" +:+ dq
    +:+ "><b> :zap: Static analysis result :zap: </b></p> " +:+ nl +:+ nl
    +:+ "<details> <summary> <b> :red_circle: cppcheck found 1 issue!"
    +:+ " Click here to see details. </b> </summary> <br>A </details>"
    +:+ nl +:+ nl +:+ " *** " +:+ nl
    +:+ "<details> <summary> <b> :red_circle: clang-tidy found 3 issues!"
    +:+ " Click here to see details. </b> </summary> <br>B </details><br>"
    +:+ nl.
Proof. vm_compute. reflexivity. Qed.

(** * Further properties *)

(** ** The parser *)

Section Parser.

Context {U : SaUtils}.

Lemma find_split (c : ascii) (s : string) (i : nat) :
  Py.find c s = Some i ->
  s = Py.take i s +:+ String c (Py.drop (S i) s)
  /\ Py.find c (Py.take i s) = None.
Proof.
  revert i. induction s as [|d s IH]; intros i H; [discriminate|].
  simpl in H. destruct (Ascii.eqb c d) eqn:Hcd.
  - apply Ascii.eqb_eq in Hcd. subst d. inversion H; subst i.
    split; reflexivity.
  - destruct (Py.find c s) as [j|] eqn:Hj; [|discriminate].
    inversion H; subst i. destruct (IH j eq_refl) as [Hs Hn].
    split.
    + change (Py.take (S j) (String d s)) with (String d (Py.take j s)).
      change (Py.drop (S (S j)) (String d s)) with (Py.drop (S j) s).
      change (String d (Py.take j s) +:+ String c (Py.drop (S j) s))
        with (String d (Py.take j s +:+ String c (Py.drop (S j) s))).
      rewrite <- Hs. reflexivity.
    + change (Py.take (S j) (String d s)) with (String d (Py.take j s)).
      simpl. rewrite Hcd, Hn. reflexivity.
Qed.

Lemma find_app (c : ascii) (pre post : string) :
  Py.find c pre = None ->
  Py.find c (pre +:+ String c post) = Some (String.length pre)
  /\ Py.take (String.length pre) (pre +:+ String c post) = pre
  /\ Py.drop (S (String.length pre)) (pre +:+ String c post) = post.
Proof.
  induction pre as [|d pre IH]; intros H.
  - change ("" +:+ String c post) with (String c post). simpl.
    rewrite Ascii.eqb_refl. destruct post; auto.
  - change (String d pre +:+ String c post)
      with (String d (pre +:+ String c post)).
    simpl in H. destruct (Ascii.eqb c d) eqn:Hcd; [discriminate|].
    destruct (Py.find c pre) eqn:Hf; [discriminate|].
    destruct (IH eq_refl) as (Hi & Ht & Hd). simpl.
    rewrite Hcd, Hi, Ht. split_and!; [reflexivity..|].
    exact Hd.
Qed.

Lemma extract_info_inv line prefix file_path is_note a b description :
  extract_info line prefix = inr (file_path, is_note, a, b, description) ->
  exists rest number tail skipped,
    Py.lstrip "/" (Py.remove prefix line) = file_path +:+ ":" +:+ rest
    /\ Py.find ":" file_path = None
    /\ rest = number +:+ ":" +:+ tail
    /\ Py.find ":" number = None
    /\ Py.int number = inr a
    /\ rest = skipped +:+ " " +:+ description
    /\ Py.find " " skipped = None
    /\ b = get_file_line_end file_path a
    /\ is_note = Py.startswith description "note:".
Proof.
  unfold extract_info, Py.index.
  set (cleaned := Py.lstrip "/" (Py.remove prefix line)).
  destruct (Py.find ":" cleaned) as [i|] eqn:Hi; [|discriminate].
  destruct (Py.find ":" (Py.drop (S i) cleaned)) as [j|] eqn:Hj;
    [|discriminate].
  destruct (Py.int (Py.take j (Py.drop (S i) cleaned))) as [e|n] eqn:Hn;
    [discriminate|].
  destruct (Py.find " " (Py.drop (S i) cleaned)) as [k|] eqn:Hk;
    [|discriminate].
  intros H; inversion H; subst; clear H.
  destruct (find_split _ _ _ Hi) as [Hs1 Hn1].
  destruct (find_split _ _ _ Hj) as [Hs2 Hn2].
  destruct (find_split _ _ _ Hk) as [Hs3 Hn3].
  exists (Py.drop (S i) cleaned), (Py.take j (Py.drop (S i) cleaned)),
    (Py.drop (S j) (Py.drop (S i) cleaned)),
    (Py.take k (Py.drop (S i) cleaned)).
  split_and!; auto.
Qed.

(** X1: [extract_info] succeeds exactly on the lines that, once cleaned,
    read [file_path:rest] where [file_path] has no colon, [rest] reads
    [number:...] with [number] an integer and no colon, and [rest] also
    reads [skipped description], split at its first space; the fields
    returned are those parts. *)
Theorem extract_info_parses line prefix file_path is_note a b description :
  extract_info line prefix = inr (file_path, is_note, a, b, description)
  <-> exists rest number tail skipped,
        Py.lstrip "/" (Py.remove prefix line) = file_path +:+ ":" +:+ rest
        /\ Py.find ":" file_path = None
        /\ rest = number +:+ ":" +:+ tail
        /\ Py.find ":" number = None
        /\ Py.int number = inr a
        /\ rest = skipped +:+ " " +:+ description
        /\ Py.find " " skipped = None
        /\ b = get_file_line_end file_path a
        /\ is_note = Py.startswith description "note:".
Proof.
  split; [apply extract_info_inv|].
  intros (rest & number & tail & skipped & Hc & Hn1 & Hr1 & Hn2 & Hint
          & Hr2 & Hn3 & -> & ->).
  unfold extract_info, Py.index.
  destruct (find_app ":" file_path rest Hn1) as (Hi & Ht & Hd).
  change (file_path +:+ ":" +:+ rest) with (file_path +:+ String ":" rest)
    in Hc.
  rewrite Hc, Hi, Ht, Hd.
  destruct (find_app ":" number tail Hn2) as (Hi2 & Ht2 & _).
  change (number +:+ ":" +:+ tail) with (number +:+ String ":" tail) in Hr1.
  rewrite <- Hr1 in Hi2, Ht2.
  destruct (find_app " " skipped description Hn3) as (Hi3 & _ & Hd3).
  change (skipped +:+ " " +:+ description)
    with (skipped +:+ String " " description) in Hr2.
  rewrite <- Hr2 in Hi3, Hd3.
  rewrite Hi2, Ht2, Hint, Hi3, Hd3. reflexivity.
Qed.

Lemma startswith_char (c d : ascii) (s : string) :
  Py.startswith (String d s) (String c "") = if ascii_dec c d then true else false.
Proof.
  unfold Py.startswith. simpl. destruct (ascii_dec c d); [|reflexivity].
  destruct s; reflexivity.
Qed.

Lemma lstrip_head (c : ascii) (s : string) :
  Py.startswith (Py.lstrip c s) (String c "") = false.
Proof.
  induction s as [|d s IH]; [reflexivity|].
  simpl. destruct (Ascii.eqb c d) eqn:Hcd; [exact IH|].
  rewrite startswith_char. destruct (ascii_dec c d) as [->|Hne]; [|reflexivity].
  rewrite Ascii.eqb_refl in Hcd. discriminate.
Qed.

(** X2: the file path that [extract_info] returns never starts with a
    path separator and holds no colon, whatever the line and the prefix. *)
Theorem extract_info_relative_path line prefix file_path is_note a b
    description :
  extract_info line prefix = inr (file_path, is_note, a, b, description) ->
  Py.startswith file_path "/" = false /\ Py.find ":" file_path = None.
Proof.
  intros H. apply extract_info_inv in H.
  destruct H as (rest & number & tail & skipped & Hc & Hn1 & _).
  split; [|exact Hn1].
  pose proof (lstrip_head "/" (Py.remove prefix line)) as Hl.
  rewrite Hc in Hl. destruct file_path as [|d p]; [reflexivity|].
  change (String d p +:+ ":" +:+ rest) with (String d (p +:+ ":" +:+ rest))
    in Hl.
  rewrite startswith_char in Hl |- *. exact Hl.
Qed.

End Parser.

(** ** The excerpt and the cache *)

Section Excerpt.

Context (cfg : Config) (fs : string -> file) {U : SaUtils}.

Implicit Types (g : Globals) (st : LoopState) (line prefix : string).
Implicit Types (changed : gmap string (list (Z * Z))) (console : bool).

(** X3: a line that starts with the prefix, is not excluded and does not
    parse ends the run with [ValueError], in console mode as when the
    comment is built; the entries collected before it are lost. *)
Theorem malformed_line_aborts_run prefix changed console pre line post st
    g0 g1 e :
  for_loop cfg fs prefix changed console pre initial g0
    = (inr (Continue st), g1) ->
  Py.startswith line prefix = true ->
  is_excluded_dir line = false ->
  extract_info line prefix = inl e ->
  create_comment_for_output cfg fs (pre ++ line :: post) prefix changed
    console g0
  = (inl Py.ValueError, g1).
Proof.
  intros Hpre Hp He Hx.
  assert (e = Py.ValueError) as ->.
  { revert Hx. unfold extract_info, Py.index, Py.int.
    repeat case_match; intros; simplify_eq; reflexivity. }
  unfold create_comment_for_output, finalized_issues.
  unfold bind at 1 2. rewrite for_loop_app, Hpre. simpl.
  unfold bind at 1. unfold loop_body. rewrite Hp, He. simpl.
  unfold bind, lift. rewrite Hx. reflexivity.
Qed.

(** *** Line numbers and the slice *)

Lemma slice_lines {A : Type} (lines : list A) (a b : Z) :
  1 <= a -> 1 <= b ->
  Py.slice lines (a - 1) (b - 1)
  = take (Z.to_nat (Z.min (b - 1) (Z.of_nat (length lines)))
          - Z.to_nat (Z.min (a - 1) (Z.of_nat (length lines))))
      (drop (Z.to_nat (Z.min (a - 1) (Z.of_nat (length lines)))) lines).
Proof.
  intros Ha Hb. unfold Py.slice, Py.clamp.
  destruct (Z.ltb_spec (a - 1) 0); [lia|].
  destruct (Z.ltb_spec (b - 1) 0); [lia|].
  reflexivity.
Qed.

Lemma slice_first {A : Type} (lines : list A) (a b : Z) :
  1 <= a -> a < b -> a <= Z.of_nat (length lines) ->
  exists first,
    lines !! Z.to_nat (a - 1) = Some first
    /\ Py.slice lines (a - 1) (b - 1)
       = first :: take (Z.to_nat (Z.min (b - 1) (Z.of_nat (length lines)) - a))
                    (drop (Z.to_nat a) lines).
Proof.
  intros Ha Hab Hn. rewrite slice_lines by lia.
  rewrite (Z.min_l (a - 1)) by lia.
  destruct (lookup_lt_is_Some_2 lines (Z.to_nat (a - 1))) as [first Hf];
    [lia|].
  exists first. split; [exact Hf|].
  rewrite (drop_S _ _ _ Hf).
  replace (Z.to_nat (Z.min (b - 1) (Z.of_nat (length lines)))
           - Z.to_nat (a - 1))%nat
    with (S (Z.to_nat (Z.min (b - 1) (Z.of_nat (length lines)) - a)))
    by lia.
  replace (S (Z.to_nat (a - 1))) with (Z.to_nat a) by lia.
  reflexivity.
Qed.

Lemma slice_none {A : Type} (lines : list A) (a b : Z) :
  1 <= a -> 1 <= b -> (b <= a \/ Z.of_nat (length lines) < a) ->
  Py.slice lines (a - 1) (b - 1) = [].
Proof.
  intros Ha Hb Hout. rewrite slice_lines by lia.
  destruct Hout as [Hba|Hlen].
  - replace (_ - _)%nat with 0%nat by lia. reflexivity.
  - rewrite drop_ge by lia. apply take_nil.
Qed.

(** X4: for a diagnostic of another repository against a cached file,
    with line numbers from 1, a range that starts inside the file and ends
    after its start is rendered, and the block holds line
    [file_line_start] of the file with its last character replaced by the
    marker, followed by the lines up to [file_line_end - 1] (or the end of
    the file) unchanged; the globals are left as they were. *)
Theorem excerpt_lines file_path a b description g lines :
  TARGET_REPO_NAME cfg <> REPO_NAME cfg ->
  FILES_WITH_ISSUES g !! file_path = Some lines ->
  1 <= a -> a < b -> a <= Z.of_nat (length lines) ->
  exists first,
    lines !! Z.to_nat (a - 1) = Some first
    /\ generate_output cfg fs false file_path a b description g
       = (inr (nl +:+ nl +:+ "------"
               +:+ nl +:+ nl +:+ " <b><i>Issue found in file</b></i> ["
               +:+ REPO_NAME cfg +:+ "/" +:+ file_path +:+ "]("
               +:+ ("https://github.com/" +:+ REPO_NAME cfg +:+ "/blob/"
                    +:+ SHA cfg +:+ "/" +:+ file_path +:+ "#L" +:+ Py.str a)
               +:+ ")" +:+ nl
               +:+ "```cpp" +:+ nl
               +:+ Py.concat
                     ((Py.drop_last first +:+ " <---- HERE" +:+ nl)
                      :: take (Z.to_nat
                                 (Z.min (b - 1) (Z.of_nat (length lines)) - a))
                           (drop (Z.to_nat a) lines))
               +:+ nl +:+ "``` " +:+ nl
               +:+ description +:+ " <br>" +:+ nl), g).
Proof.
  intros Hrepo Hc Ha Hab Hn.
  destruct (slice_first lines a b Ha Hab Hn) as (first & Hf & Hs).
  exists first. split; [exact Hf|].
  exact (generate_output_excerpt cfg fs _ _ _ _ _ _ _ _ Hrepo Hc Hs).
Qed.

(** X5: under the same conditions, a range that ends at or before its
    start, or that starts after the last line of the file, is not
    rendered: the call raises [IndexError]. *)
Theorem excerpt_out_of_range file_path a b description g lines :
  TARGET_REPO_NAME cfg <> REPO_NAME cfg ->
  FILES_WITH_ISSUES g !! file_path = Some lines ->
  1 <= a -> 1 <= b ->
  (b <= a \/ Z.of_nat (length lines) < a) ->
  generate_output cfg fs false file_path a b description g
  = (inl Py.IndexError, g).
Proof.
  intros Hrepo Hc Ha Hb Hout. apply String.eqb_neq in Hrepo.
  unfold generate_output, bind, ret, get, cached, raise.
  rewrite Hrepo. simpl.
  rewrite bool_decide_eq_true_2 by (rewrite Hc; eauto).
  simpl. rewrite Hc, (slice_none lines a b Ha Hb Hout). reflexivity.
Qed.

(** *** The cache over a run *)

Lemma generate_output_cache_grows is_note file_path a b description g
    path lines :
  FILES_WITH_ISSUES g !! path = Some lines ->
  FILES_WITH_ISSUES
    (snd (generate_output cfg fs is_note file_path a b description g)) !! path
  = Some lines.
Proof.
  intros Hl. unfold generate_output, print.
  unfold bind, ret, get, raise, cached, modify, except_FileNotFoundError,
    open_readlines.
  repeat (case_match; simplify_eq/=; try assumption).
  all: repeat match goal with
       | H : negb (bool_decide (is_Some ?o)) = true |- _ =>
           apply negb_true_iff, bool_decide_eq_false in H
       end.
  all: destruct (decide (file_path = path)) as [->|Hne];
    [exfalso; eauto|rewrite lookup_insert_ne by assumption; exact Hl].
Qed.

Lemma loop_body_cache_grows prefix changed console line st g path lines :
  FILES_WITH_ISSUES g !! path = Some lines ->
  FILES_WITH_ISSUES
    (snd (loop_body cfg fs prefix changed console line st g)) !! path
  = Some lines.
Proof.
  intros Hl. unfold loop_body, bind, lift, ret, get, modify.
  repeat (case_match; simplify_eq/=; try assumption);
    match goal with
    | Hg : generate_output _ _ ?n ?p ?a ?b ?d ?g = (_, ?g2) |- _ =>
        pose proof (generate_output_cache_grows n p a b d g path lines Hl)
          as Hgrow;
        rewrite Hg in Hgrow; exact Hgrow
    end.
Qed.

Lemma for_loop_cache_grows prefix changed console tool_output st g path lines :
  FILES_WITH_ISSUES g !! path = Some lines ->
  FILES_WITH_ISSUES
    (snd (for_loop cfg fs prefix changed console tool_output st g)) !! path
  = Some lines.
Proof.
  revert st g. induction tool_output as [|line rest IH]; intros st g Hl.
  - exact Hl.
  - simpl. unfold bind.
    pose proof (loop_body_cache_grows prefix changed console line st g
                  path lines Hl) as Hb.
    destruct (loop_body cfg fs prefix changed console line st g)
      as [[e|[st1|issues]] g1]; simpl in Hb; try exact Hb.
    apply IH, Hb.
Qed.

(** X6: over a run of [create_comment_for_output], whether it returns or
    raises, a file that is cached stays cached with the same lines, and a
    cache that agrees with the files still agrees with them at the end. *)
Theorem cache_kept_over_run tool_output prefix changed console g :
  cache_ok fs g ->
  let g' :=
    snd (create_comment_for_output cfg fs tool_output prefix changed
           console g) in
  cache_ok fs g'
  /\ forall path lines,
       FILES_WITH_ISSUES g !! path = Some lines ->
       FILES_WITH_ISSUES g' !! path = Some lines.
Proof.
  intros Hok g'. subst g'.
  unfold create_comment_for_output, finalized_issues, bind, ret.
  split.
  - destruct (for_loop_related cfg fs prefix changed console tool_output
                initial g g (conj eq_refl (conj Hok Hok)))
      as (_ & _ & Hok' & _).
    destruct (for_loop cfg fs prefix changed console tool_output initial g)
      as [[e|[st|issues]] g1]; exact Hok'.
  - intros path lines Hl.
    pose proof (for_loop_cache_grows prefix changed console tool_output
                  initial g path lines Hl) as Hg.
    destruct (for_loop cfg fs prefix changed console tool_output initial g)
      as [[e|[st|issues]] g1]; exact Hg.
Qed.


(** *** Runs that never touch a file *)

Lemma generate_output_same_repo is_note file_path a b description g :
  TARGET_REPO_NAME cfg = REPO_NAME cfg ->
  exists new_line,
    generate_output cfg fs is_note file_path a b description g
    = (inr new_line, g).
Proof.
  intros Hrepo. apply String.eqb_eq in Hrepo.
  unfold generate_output. rewrite Hrepo.
  destruct is_note; simpl; eexists; reflexivity.
Qed.

Lemma loop_body_quiet prefix changed console line st g :
  TARGET_REPO_NAME cfg = REPO_NAME cfg \/ console = true ->
  quiet g (loop_body cfg fs prefix changed console line st g).
Proof.
  intros Hmode. unfold quiet, loop_body, bind, lift, ret, get, modify.
  destruct (Py.startswith line prefix && negb (is_excluded_dir line));
    [|split_and!; [reflexivity..|discriminate]].
  destruct (extract_info line prefix)
    as [e|[[[[file_path is_note] a] b] description]] eqn:Hx.
  { split_and!; [reflexivity..|]. intros e' He'. simpl in He'.
    inversion He'; subst e'. revert Hx. unfold extract_info, Py.index, Py.int.
    repeat case_match; intros; simplify_eq; reflexivity. }
  destruct console.
  { destruct (append_issue _ _ _ _).
    split_and!; [reflexivity..|discriminate]. }
  destruct Hmode as [Hrepo|]; [|discriminate].
  destruct (is_part_of_pr_changes file_path a changed);
    [|split_and!; [reflexivity..|discriminate]].
  destruct (generate_description is_note (was_note st) a description
              (per_issue_string st)) as [p d].
  destruct (generate_output_same_repo is_note file_path a b d g Hrepo)
    as [new_line ->].
  destruct (check_for_char_limit cfg new_line g);
    [destruct (append_issue _ _ _ _)|];
    split_and!; try reflexivity; discriminate.
Qed.

Lemma for_loop_quiet prefix changed console tool_output st g :
  TARGET_REPO_NAME cfg = REPO_NAME cfg \/ console = true ->
  quiet g (for_loop cfg fs prefix changed console tool_output st g).
Proof.
  intros Hmode. revert st g.
  induction tool_output as [|line rest IH]; intros st g.
  - split_and!; [reflexivity..|discriminate].
  - simpl. unfold bind.
    destruct (loop_body_quiet prefix changed console line st g Hmode)
      as (Hc & Ht & He).
    destruct (loop_body cfg fs prefix changed console line st g)
      as [[e|[st1|issues]] g1]; simpl in *.
    + split_and!; [exact Hc|exact Ht|exact He].
    + destruct (IH st1 g1) as (Hc' & Ht' & He').
      split_and!; [congruence|congruence|exact He'].
    + split_and!; [exact Hc|exact Ht|discriminate].
Qed.

(** X8: when the diagnostics are of the target repository itself, and
    always in console mode, the excerpt branch of [generate_output] is
    never reached: a run of [create_comment_for_output] leaves the cache
    [FILES_WITH_ISSUES] as it is and can raise nothing but [ValueError]
    (no [KeyError], [IndexError] or error of [open]). *)
Theorem run_without_files tool_output prefix changed console g :
  TARGET_REPO_NAME cfg = REPO_NAME cfg \/ console = true ->
  let r :=
    create_comment_for_output cfg fs tool_output prefix changed console g in
  FILES_WITH_ISSUES (snd r) = FILES_WITH_ISSUES g
  /\ forall e, fst r = inl e -> e = Py.ValueError.
Proof.
  intros Hmode r. subst r.
  unfold create_comment_for_output, finalized_issues, bind, ret.
  destruct (for_loop_quiet prefix changed console tool_output initial g Hmode)
    as (Hc & _ & He).
  destruct (for_loop cfg fs prefix changed console tool_output initial g)
    as [[e|[st|issues]] g1]; simpl in *;
    (split; [exact Hc|]); [|discriminate..].
  intros e' He'. inversion He'; subst e'. apply He. reflexivity.
Qed.

End Excerpt.

(** ** The aggregator *)

Section Aggregator.

Context (cfg : Config) (fs : string -> file) {U : SaUtils}.

Implicit Types (g : Globals) (st : LoopState) (line prefix : string).
Implicit Types (changed : gmap string (list (Z * Z))) (console : bool).

(** *** Console mode *)

Lemma loop_body_console cfg' fs' prefix changed changed' line st g g' :
  loop_body cfg fs prefix changed true line st g
  = (fst (loop_body cfg' fs' prefix changed' true line st g'), g).
Proof.
  unfold loop_body, bind, lift, ret.
  destruct (Py.startswith line prefix && negb (is_excluded_dir line));
    [|reflexivity].
  destruct (extract_info line prefix)
    as [e|[[[[file_path is_note] a] b] description]]; [reflexivity|].
  destruct (append_issue _ _ _ _). reflexivity.
Qed.

Lemma for_loop_console cfg' fs' prefix changed changed' tool_output st g g' :
  for_loop cfg fs prefix changed true tool_output st g
  = (fst (for_loop cfg' fs' prefix changed' true tool_output st g'), g).
Proof.
  revert st g'. induction tool_output as [|line rest IH]; intros st g'.
  - reflexivity.
  - simpl. unfold bind.
    rewrite (loop_body_console cfg' fs' prefix changed changed' line st g g').
    destruct (loop_body cfg' fs' prefix changed' true line st g')
      as [[e|[st1|issues]] g1]; simpl; [reflexivity| |reflexivity].
    apply IH.
Qed.

(** X9: in console mode what [create_comment_for_output] returns or raises
    depends on the stream, the prefix and the helpers of [sa_utils] alone:
    not on the configuration, the changed-files mapping, the running
    length, the cache or the files that [generate_output] reads; and the
    run leaves the running length and the cache as they are. *)
Theorem console_mode_pure cfg' fs' tool_output prefix changed changed' g g' :
  let r := create_comment_for_output cfg fs tool_output prefix changed true g in
  fst r
  = fst (create_comment_for_output cfg' fs' tool_output prefix changed'
           true g')
  /\ CURRENT_COMMENT_LENGTH (snd r) = CURRENT_COMMENT_LENGTH g
  /\ FILES_WITH_ISSUES (snd r) = FILES_WITH_ISSUES g.
Proof.
  intros r. subst r.
  unfold create_comment_for_output, finalized_issues, bind, ret.
  rewrite (for_loop_console cfg' fs' prefix changed changed' tool_output
             initial g g').
  destruct (for_loop cfg' fs' prefix changed' true tool_output initial g')
    as [[e|[st|issues]] g1]; split_and!; reflexivity.
Qed.

(** *** Entries stay where they are *)

(** X10: the entries that the loop has finalized after a part of the
    stream are the first entries of what the run returns, in the same
    order, whatever follows in the stream: a finalized entry is never
    removed, changed or moved. *)
Theorem finalized_entries_stay prefix changed console pre post st g0 g1 l g' :
  for_loop cfg fs prefix changed console pre initial g0
    = (inr (Continue st), g1) ->
  finalized_issues cfg fs (pre ++ post) prefix changed console g0
    = (inr l, g') ->
  list_of_issues st `prefix_of` l.
Proof.
  intros Hpre H. unfold finalized_issues, bind in H.
  rewrite for_loop_app, Hpre in H.
  destruct (for_loop cfg fs prefix changed console post st g1)
    as [[e|c] g2] eqn:Hl; [discriminate|].
  pose proof (for_loop_prefix cfg fs _ _ _ _ _ _ _ _ Hl) as Hp.
  destruct c; inversion H; subst; exact Hp.
Qed.

(** *** Lines that are skipped *)

Lemma for_loop_filter prefix changed console tool_output st g :
  for_loop cfg fs prefix changed console tool_output st g
  = for_loop cfg fs prefix changed console
      (filter (fun line =>
                 Is_true (Py.startswith line prefix
                          && negb (is_excluded_dir line)))
         tool_output)
      st g.
Proof.
  revert st g. induction tool_output as [|line rest IH]; intros st g;
    [reflexivity|].
  destruct (Py.startswith line prefix && negb (is_excluded_dir line)) eqn:Hm.
  - rewrite filter_cons_True by (rewrite Hm; exact I).
    simpl. unfold bind.
    destruct (loop_body cfg fs prefix changed console line st g)
      as [[e|[st1|issues]] g1]; [reflexivity| |reflexivity].
    apply IH.
  - rewrite filter_cons_False by (rewrite Hm; exact id).
    simpl. unfold bind at 1. unfold loop_body. rewrite Hm. simpl.
    apply IH.
Qed.

(** X11: the lines that do not start with the prefix or that lie in an
    excluded directory have no effect at all: the run over the stream and
    the run over the stream without them return or raise the same and
    leave the same globals. *)
Theorem skipped_lines_ignored tool_output prefix changed console g :
  create_comment_for_output cfg fs tool_output prefix changed console g
  = create_comment_for_output cfg fs
      (filter (fun line =>
                 Is_true (Py.startswith line prefix
                          && negb (is_excluded_dir line)))
         tool_output)
      prefix changed console g.
Proof.
  unfold create_comment_for_output, finalized_issues, bind.
  rewrite <- for_loop_filter. reflexivity.
Qed.

(** *** The running length as a flag *)

Lemma loop_body_below prefix changed console line st g st' g' :
  CURRENT_COMMENT_LENGTH g < COMMENT_MAX_SIZE cfg ->
  loop_body cfg fs prefix changed console line st g
    = (inr (Continue st'), g') ->
  CURRENT_COMMENT_LENGTH g' < COMMENT_MAX_SIZE cfg.
Proof.
  intros Hmax H. unfold loop_body, bind, lift, ret, get, modify in H.
  repeat case_match; simplify_eq/=; try lia.
  unfold check_for_char_limit in *. simpl. lia.
Qed.

Lemma for_loop_below prefix changed console tool_output st g st' g' :
  CURRENT_COMMENT_LENGTH g < COMMENT_MAX_SIZE cfg ->
  for_loop cfg fs prefix changed console tool_output st g
    = (inr (Continue st'), g') ->
  CURRENT_COMMENT_LENGTH g' < COMMENT_MAX_SIZE cfg.
Proof.
  revert st g. induction tool_output as [|line rest IH]; intros st g Hmax H.
  - inversion H; subst. exact Hmax.
  - simpl in H. unfold bind in H.
    destruct (loop_body cfg fs prefix changed console line st g)
      as [[e|[st1|issues]] g1] eqn:Hb; try discriminate.
    exact (IH _ _ (loop_body_below _ _ _ _ _ _ _ _ Hmax Hb) H).
Qed.

(** X12: at the end of a loop that did not raise, the running length
    stands at the maximum exactly when it stood there at the start or the
    loop was cut short by the budget; so the test of [prepare_comment_body]
    for the truncation notice tells whether some run was cut short. *)
Theorem length_at_maximum_iff_cut_short prefix changed console tool_output
    st g c g' :
  CURRENT_COMMENT_LENGTH g <= COMMENT_MAX_SIZE cfg ->
  for_loop cfg fs prefix changed console tool_output st g = (inr c, g') ->
  CURRENT_COMMENT_LENGTH g' = COMMENT_MAX_SIZE cfg
  <-> CURRENT_COMMENT_LENGTH g = COMMENT_MAX_SIZE cfg
      \/ exists issues, c = Return issues.
Proof.
  intros Hmax H. split.
  - intros Hend. destruct c as [st'|issues]; [|right; eauto]. left.
    destruct (Z.eq_dec (CURRENT_COMMENT_LENGTH g) (COMMENT_MAX_SIZE cfg))
      as [|Hne]; [assumption|].
    pose proof (for_loop_below prefix changed console tool_output st g st' g'
                  ltac:(lia) H).
    lia.
  - intros [Hstart|[issues ->]].
    + destruct (for_loop_length cfg fs _ _ _ _ _ _ _ _ Hmax H). lia.
    + exact (for_loop_return cfg fs _ _ _ _ _ _ _ _ H).
Qed.

End Aggregator.

(** ** The two runs of the program *)

Section TwoRuns.

Context (cfg : Config) (fs : string -> file) {U : SaUtils} {E : SaEnv}.

Implicit Types (g : Globals) (st : LoopState) (line prefix : string).
Implicit Types (changed : gmap string (list (Z * Z))) (console : bool).

Lemma len_join (l : list string) :
  Py.len (Py.join nl l) <= total_length l + Z.of_nat (length l).
Proof.
  unfold Py.join. induction l as [|e l IH]; [reflexivity|].
  rewrite total_length_cons. destruct l as [|e' l].
  - simpl String.concat. change (total_length []) with 0. simpl length. lia.
  - change (String.concat nl (e :: e' :: l))
      with (e +:+ nl +:+ String.concat nl (e' :: l)).
    rewrite !len_app. change (Py.len nl) with 1.
    simpl length in *. lia.
Qed.

Lemma finalized_issues_paid tool_output prefix changed g l g' :
  trims ->
  CURRENT_COMMENT_LENGTH g <= COMMENT_MAX_SIZE cfg ->
  finalized_issues cfg fs tool_output prefix changed false g = (inr l, g') ->
  total_length l <= CURRENT_COMMENT_LENGTH g' - CURRENT_COMMENT_LENGTH g
  /\ CURRENT_COMMENT_LENGTH g' <= COMMENT_MAX_SIZE cfg.
Proof.
  intros Htrims Hmax H. unfold finalized_issues, bind in H.
  destruct (for_loop cfg fs prefix changed false tool_output initial g)
    as [[e|[st|issues]] g1] eqn:Hl; [discriminate| |];
    inversion H; subst;
    pose proof (for_loop_weight cfg fs Htrims _ _ _ _ _ _ _ Hmax Hl) as Hw;
    destruct (for_loop_length cfg fs _ _ _ _ _ _ _ _ Hmax Hl) as [_ H2];
    cbn iota beta in Hw; unfold weight in Hw; simpl in Hw;
    change (Py.len "") with 0 in Hw.
  - pose proof (flush_weight st) as Hf. unfold weight in Hf. lia.
  - rewrite (for_loop_return cfg fs _ _ _ _ _ _ _ _ Hl). lia.
Qed.

Lemma create_comment_for_output_inv tool_output prefix changed console g r g' :
  create_comment_for_output cfg fs tool_output prefix changed console g
    = (inr r, g') ->
  exists l,
    r = returned l
    /\ finalized_issues cfg fs tool_output prefix changed console g
       = (inr l, g').
Proof.
  unfold create_comment_for_output, bind, ret. intros H.
  destruct (finalized_issues cfg fs tool_output prefix changed console g)
    as [[e|l] g1]; [discriminate|].
  inversion H; subst. eauto.
Qed.

Lemma open_readlines_length file_path g r g' :
  open_readlines fs file_path g = (r, g') ->
  CURRENT_COMMENT_LENGTH g' = CURRENT_COMMENT_LENGTH g.
Proof.
  unfold open_readlines. destruct (fs file_path); intros H; inversion H;
    reflexivity.
Qed.

(** What [read_files_and_parse_results] returns comes from two runs of
    [create_comment_for_output], the second from the globals that the
    first has left. *)
Lemma read_files_and_parse_results_inv args g c1 c2 n1 n2 oc g' :
  read_files_and_parse_results cfg fs args g
    = (inr (c1, c2, n1, n2, oc), g') ->
  exists lines1 lines2 changed g1 g2 g3,
    open_readlines fs (clangtidy args)
      (snd (open_readlines fs (cppcheck args) g)) = (inr lines2, g1)
    /\ fst (open_readlines fs (cppcheck args) g) = inr lines1
    /\ oc = String.eqb (output_to_console args) "true"
    /\ create_comment_for_output cfg fs lines1 WORK_DIR changed oc g1
       = (inr (c1, n1), g2)
    /\ create_comment_for_output cfg fs lines2 WORK_DIR changed oc g2
       = (inr (c2, n2), g3)
    /\ CURRENT_COMMENT_LENGTH g' = CURRENT_COMMENT_LENGTH g3.
Proof.
  unfold read_files_and_parse_results, bind, ret. intros H.
  destruct (open_readlines fs (cppcheck args) g) as [[e|lines1] h1] eqn:H1;
    [discriminate|].
  destruct (open_readlines fs (clangtidy args) h1) as [[e|lines2] h2] eqn:H2;
    [discriminate|].
  match type of H with
  | context [create_comment_for_output cfg fs lines1 ?p ?ch ?oc h2] =>
      remember ch as changed eqn:Hch; clear Hch;
      destruct (create_comment_for_output cfg fs lines1 p changed oc h2)
        as [[e|[d1 m1]] h3] eqn:H3; [discriminate|];
      destruct (create_comment_for_output cfg fs lines2 p changed oc h3)
        as [[e|[d2 m2]] h4] eqn:H4; [discriminate|];
      exists lines1, lines2, changed, h2, h3, h4
  end.
  assert (c1 = d1 /\ c2 = d2 /\ n1 = m1 /\ n2 = m2
          /\ oc = String.eqb (output_to_console args) "true"
          /\ CURRENT_COMMENT_LENGTH g' = CURRENT_COMMENT_LENGTH h4)
    as (-> & -> & -> & -> & -> & Hlen).
  { unfold print, modify in H.
    repeat (case_match; simplify_eq/=); split_and!; reflexivity. }
  split_and!; try reflexivity; assumption.
Qed.

(** X13: when the comment is built, the entries that
    [read_files_and_parse_results] collects for the two tools together
    hold no more characters than the budget left at the start, and the two
    texts returned hold at most one character more for each entry (the
    line feeds that join the entries are not charged). *)
Theorem both_tools_share_budget args g c1 c2 n1 n2 oc g' :
  trims ->
  CURRENT_COMMENT_LENGTH g <= COMMENT_MAX_SIZE cfg ->
  output_to_console args <> "true" ->
  read_files_and_parse_results cfg fs args g
    = (inr (c1, c2, n1, n2, oc), g') ->
  exists l1 l2,
    (c1, n1) = returned l1 /\ (c2, n2) = returned l2
    /\ total_length l1 + total_length l2
       <= COMMENT_MAX_SIZE cfg - CURRENT_COMMENT_LENGTH g
    /\ Py.len c1 + Py.len c2
       <= COMMENT_MAX_SIZE cfg - CURRENT_COMMENT_LENGTH g + n1 + n2.
Proof.
  intros Htrims Hmax Hmode H.
  apply read_files_and_parse_results_inv in H
    as (lines1 & lines2 & changed & g1 & g2 & g3 & H2 & H1 & -> & Hc1 & Hc2
        & Hlen).
  apply String.eqb_neq in Hmode. rewrite Hmode in Hc1, Hc2.
  apply create_comment_for_output_inv in Hc1 as (l1 & Hr1 & Hf1).
  apply create_comment_for_output_inv in Hc2 as (l2 & Hr2 & Hf2).
  pose proof (open_readlines_length _ _ _ _ H2) as Hg1.
  pose proof (open_readlines_length (cppcheck args) g _ _
                (surjective_pairing _)) as Hg0.
  rewrite Hg0 in Hg1.
  assert (Hmax1 : CURRENT_COMMENT_LENGTH g1 <= COMMENT_MAX_SIZE cfg)
    by (rewrite Hg1; exact Hmax).
  destruct (finalized_issues_paid _ _ _ _ _ _ Htrims Hmax1 Hf1)
    as [Hp1 Hm1].
  destruct (finalized_issues_paid _ _ _ _ _ _ Htrims Hm1 Hf2) as [Hp2 Hm2].
  exists l1, l2. split_and!; [assumption..| |].
  - lia.
  - unfold returned in Hr1, Hr2. inversion Hr1; inversion Hr2; subst.
    pose proof (len_join l1). pose proof (len_join l2). lia.
Qed.

End TwoRuns.

(** ** The report and the pull request *)

Section Posting.

Context (cfg : Config) (fs : string -> file) {U : SaUtils} {E : SaEnv}.

Implicit Types (g : Globals) (pr : PullRequest).

Lemma prefix_app (t s : string) : String.prefix t (t +:+ s) = true.
Proof.
  induction t as [|a t IH]; [destruct s; reflexivity|].
  change (String a t +:+ s) with (String a (t +:+ s)). simpl.
  destruct (ascii_dec a a); [exact IH|congruence].
Qed.

Lemma contains_here (t s : string) : PyText.contains t (t +:+ s) = true.
Proof.
  pose proof (prefix_app t s) as Hp.
  destruct (t +:+ s); cbn [PyText.contains]; rewrite Hp; reflexivity.
Qed.

Lemma contains_skip (t p s : string) :
  PyText.contains t s = true -> PyText.contains t (p +:+ s) = true.
Proof.
  intros H. induction p as [|a p IH]; [exact H|].
  change (String a p +:+ s) with (String a (p +:+ s)).
  cbn [PyText.contains]. rewrite IH. apply orb_true_r.
Qed.

(** X14: whatever it is given, the body that [prepare_comment_body] builds
    holds the comment title, which is what [create_or_edit_comment] looks
    for on the next run. *)
Theorem body_holds_title cppcheck_comment clang_tidy_comment
    cppcheck_issues_found clang_tidy_issues_found g :
  PyText.contains (COMMENT_TITLE cfg)
    (prepare_comment_body cfg cppcheck_comment clang_tidy_comment
       cppcheck_issues_found clang_tidy_issues_found g)
  = true.
Proof.
  unfold prepare_comment_body.
  repeat case_match; rewrite ?app_assoc_s;
    do 5 apply contains_skip; apply contains_here.
Qed.

(** *** Looking for the comment of an earlier run *)

Lemma find_comment_found title (cs : list Comment) i (c : Comment) :
  find_comment title cs = Some (i, c) ->
  cs !! i = Some c
  /\ String.eqb (login c) "github-actions[bot]"
     && PyText.contains title (body c) = true
  /\ forall j c', (j < i)%nat -> cs !! j = Some c' ->
       String.eqb (login c') "github-actions[bot]"
       && PyText.contains title (body c') = false.
Proof.
  revert i. induction cs as [|c0 cs IH]; intros i H; [discriminate|].
  simpl in H.
  destruct (String.eqb (login c0) "github-actions[bot]"
            && PyText.contains title (body c0)) eqn:Hc0.
  - inversion H; subst. split_and!; [reflexivity|exact Hc0|]. intros; lia.
  - destruct (find_comment title cs) as [[k c1]|] eqn:Hf; [|discriminate].
    inversion H; subst. destruct (IH k eq_refl) as (Hl & Ho & Hb).
    split_and!; [exact Hl|exact Ho|].
    intros [|j] c' Hj Hc'; simpl in Hc'.
    + inversion Hc'; subst. exact Hc0.
    + apply (Hb j); [lia|exact Hc'].
Qed.

Lemma find_comment_first title (cs : list Comment) i (c : Comment) :
  cs !! i = Some c ->
  String.eqb (login c) "github-actions[bot]"
  && PyText.contains title (body c) = true ->
  (forall j c', (j < i)%nat -> cs !! j = Some c' ->
     String.eqb (login c') "github-actions[bot]"
     && PyText.contains title (body c') = false) ->
  find_comment title cs = Some (i, c).
Proof.
  revert i. induction cs as [|c0 cs IH]; intros i Hl Ho Hb; [discriminate|].
  simpl. destruct i as [|i]; simpl in Hl.
  - inversion Hl; subst. rewrite Ho. reflexivity.
  - rewrite (Hb O c0) by (lia || reflexivity).
    rewrite (IH i Hl Ho); [reflexivity|].
    intros j c' Hj Hc'. apply (Hb (S j)); [lia|exact Hc'].
Qed.

Lemma find_comment_none title (cs : list Comment) :
  find_comment title cs = None ->
  forall j c', cs !! j = Some c' ->
    String.eqb (login c') "github-actions[bot]"
    && PyText.contains title (body c') = false.
Proof.
  induction cs as [|c0 cs IH]; intros H j c' Hc'; [discriminate|].
  simpl in H.
  destruct (String.eqb (login c0) "github-actions[bot]"
            && PyText.contains title (body c0)) eqn:Hc0; [discriminate|].
  destruct (find_comment title cs) as [[k c1]|] eqn:Hf; [discriminate|].
  destruct j as [|j]; simpl in Hc'.
  - inversion Hc'; subst. exact Hc0.
  - exact (IH eq_refl j c' Hc').
Qed.

(** X15: when the program posts as the automation identity and no comment
    has the id -1, a body that holds the title is found again by the next
    call: the second call of [create_or_edit_comment] rewrites the very
    comment that the first call wrote, and changes nothing else. *)
Theorem second_post_edits_first body1 body2 pr :
  poster pr = "github-actions[bot]" ->
  next_id pr <> -1 ->
  Forall (fun c => comment_id c <> -1) (comments pr) ->
  PyText.contains (COMMENT_TITLE cfg) body1 = true ->
  exists i c,
    comments (create_or_edit_comment cfg body1 pr) !! i = Some c
    /\ body c = body1
    /\ comments (create_or_edit_comment cfg body2
                   (create_or_edit_comment cfg body1 pr))
       = <[i := {| comment_id := comment_id c; login := login c;
                   body := body2 |}]>
           (comments (create_or_edit_comment cfg body1 pr)).
Proof.
  intros Hposter Hnext Hids Htitle.
  destruct (find_comment (COMMENT_TITLE cfg) (comments pr)) as [[i c0]|]
    eqn:Hfind.
  - destruct (find_comment_found _ _ _ _ Hfind) as (Hl & Ho & Hb).
    assert (Hid : comment_id c0 <> -1).
    { rewrite Forall_lookup in Hids. exact (Hids i c0 Hl). }
    apply Z.eqb_neq in Hid as Hid'.
    set (c1 := {| comment_id := comment_id c0; login := login c0;
                  body := body1 |}).
    assert (Hpr1 : create_or_edit_comment cfg body1 pr
                   = {| comments := <[i := c1]> (comments pr);
                        poster := poster pr; next_id := next_id pr |}).
    { unfold create_or_edit_comment. rewrite Hfind. simpl. rewrite Hid'.
      reflexivity. }
    rewrite Hpr1. simpl. exists i, c1.
    assert (Hl1 : <[i := c1]> (comments pr) !! i = Some c1).
    { apply list_lookup_insert_eq. exact (lookup_lt_Some _ _ _ Hl). }
    split_and!; [exact Hl1|reflexivity|].
    unfold create_or_edit_comment. simpl.
    rewrite (find_comment_first (COMMENT_TITLE cfg) _ i c1 Hl1).
    + simpl. rewrite Hid'. reflexivity.
    + apply andb_true_iff in Ho as [Ho _]. simpl. rewrite Ho, Htitle.
      reflexivity.
    + intros j c' Hj Hc'. rewrite list_lookup_insert_ne in Hc' by lia.
      exact (Hb j c' Hj Hc').
  - set (c1 := {| comment_id := next_id pr; login := poster pr;
                  body := body1 |}).
    assert (Hpr1 : create_or_edit_comment cfg body1 pr
                   = {| comments := comments pr ++ [c1];
                        poster := poster pr; next_id := next_id pr + 1 |}).
    { unfold create_or_edit_comment. rewrite Hfind. reflexivity. }
    rewrite Hpr1. simpl. exists (length (comments pr)), c1.
    assert (Hl1 : (comments pr ++ [c1]) !! length (comments pr) = Some c1).
    { rewrite lookup_app_r by lia. rewrite Nat.sub_diag. reflexivity. }
    split_and!; [exact Hl1|reflexivity|].
    unfold create_or_edit_comment. simpl.
    rewrite (find_comment_first (COMMENT_TITLE cfg) _ _ c1 Hl1).
    + simpl. apply Z.eqb_neq in Hnext. rewrite Hnext. reflexivity.
    + simpl. rewrite Hposter, Htitle. reflexivity.
    + intros j c' Hj Hc'. rewrite lookup_app_l in Hc' by lia.
      exact (find_comment_none _ _ Hfind j c' Hc').
Qed.

(** X16: [create_or_edit_comment] removes no comment and changes neither
    the id nor the author of any; the only text it can change is that of a
    comment of the automation identity that holds the title. *)
Theorem other_comments_untouched comment_body pr j (c : Comment) :
  comments pr !! j = Some c ->
  exists c',
    comments (create_or_edit_comment cfg comment_body pr) !! j = Some c'
    /\ comment_id c' = comment_id c
    /\ login c' = login c
    /\ (body c' = body c
        \/ (login c = "github-actions[bot]"
            /\ PyText.contains (COMMENT_TITLE cfg) (body c) = true)).
Proof.
  intros Hj. unfold create_or_edit_comment.
  assert (Hcreate : (comments pr
                     ++ [{| comment_id := next_id pr; login := poster pr;
                            body := comment_body |}]) !! j = Some c).
  { rewrite lookup_app_l by exact (lookup_lt_Some _ _ _ Hj). exact Hj. }
  destruct (find_comment (COMMENT_TITLE cfg) (comments pr)) as [[i c0]|]
    eqn:Hfind; [|exists c; simpl; auto].
  destruct (negb (comment_id c0 =? -1)); [|exists c; simpl; auto].
  destruct (find_comment_found _ _ _ _ Hfind) as (Hl & Ho & _).
  simpl. destruct (decide (i = j)) as [->|Hne].
  - rewrite Hl in Hj. inversion Hj; subst c0.
    eexists. split; [apply list_lookup_insert_eq,
                       (lookup_lt_Some _ _ _ Hl)|].
    simpl. split_and!; [reflexivity..|]. right.
    apply andb_true_iff in Ho as [Ho1 Ho2].
    apply String.eqb_eq in Ho1. auto.
  - exists c. rewrite list_lookup_insert_ne by exact Hne. auto.
Qed.

(** *** The main program *)

Lemma main_inv args pr g status pr' g' :
  main cfg fs args pr g = (inr (status, pr'), g') ->
  exists c1 c2 n1 n2 oc,
    read_files_and_parse_results cfg fs args g
      = (inr (c1, c2, n1, n2, oc), g')
    /\ status = n1 + n2
    /\ pr' = if oc then pr
             else create_or_edit_comment cfg
                    (prepare_comment_body cfg c1 c2 n1 n2 g') pr.
Proof.
  unfold main, bind, ret, get. intros H.
  destruct (read_files_and_parse_results cfg fs args g)
    as [[e|[[[[c1 c2] n1] n2] oc]] g1]; [discriminate|].
  exists c1, c2, n1, n2, oc.
  destruct oc; simpl in H; inversion H; subst; split_and!; reflexivity.
Qed.

(** X17: the value that the main program hands to [sys.exit] is never
    negative.  In console mode the pull request is left alone.  Otherwise
    one body is posted, and the value is zero exactly when that body is
    the "no issues" banner, followed by the truncation notice if the
    running length stands at the maximum. *)
Theorem exit_status_and_comment args pr g status pr' g' :
  main cfg fs args pr g = (inr (status, pr'), g') ->
  0 <= status
  /\ if String.eqb (output_to_console args) "true" then pr' = pr
     else exists comment_body,
            pr' = create_or_edit_comment cfg comment_body pr
            /\ (status = 0
                <-> comment_body
                    = no_issues_banner cfg
                      +:+ (if CURRENT_COMMENT_LENGTH g' =? COMMENT_MAX_SIZE cfg
                           then truncation_notice cfg else "")).
Proof.
  intros H.
  apply main_inv in H as (c1 & c2 & n1 & n2 & oc & Hr & -> & ->).
  apply read_files_and_parse_results_inv in Hr
    as (lines1 & lines2 & changed & g1 & g2 & g3 & _ & _ & -> & Hc1 & Hc2 & _).
  destruct (create_comment_for_output_shape cfg fs _ _ _ _ _ _ _ _ Hc1)
    as [Hn1 _].
  destruct (create_comment_for_output_shape cfg fs _ _ _ _ _ _ _ _ Hc2)
    as [Hn2 _].
  split; [lia|].
  destruct (String.eqb (output_to_console args) "true"); [reflexivity|].
  eexists. split; [reflexivity|].
  unfold prepare_comment_body, no_issues_banner, truncation_notice.
  destruct (Z.eqb_spec n1 0) as [->|Hz1];
    [destruct (Z.eqb_spec n2 0) as [->|Hz2]|]; simpl andb; cbn iota.
  - split; [intros _|reflexivity].
    destruct (_ =? _); rewrite ?app_assoc_s, ?app_nil_r_s; reflexivity.
  - split; [lia|]. intros Hbody. exfalso. revert Hbody.
    repeat case_match; rewrite ?app_assoc_s;
      intros Hbody; do 4 apply (inj (String.app _)) in Hbody;
      cbv [String.append] in Hbody; discriminate.
  - split; [lia|]. intros Hbody. exfalso. revert Hbody.
    repeat case_match; rewrite ?app_assoc_s;
      intros Hbody; do 4 apply (inj (String.app _)) in Hbody;
      cbv [String.append] in Hbody; discriminate.
Qed.

End Posting.

(** ** The list of files to check *)

Section Files.

Lemma prefix_split (p s : string) :
  String.prefix p s = true <-> exists rest, s = p +:+ rest.
Proof.
  split.
  - revert s. induction p as [|a p IH]; intros s H; [exists s; reflexivity|].
    destruct s as [|b s]; [discriminate|]. simpl in H.
    destruct (ascii_dec a b) as [->|]; [|discriminate].
    destruct (IH s H) as [rest ->]. exists rest. reflexivity.
  - intros [rest ->]. apply prefix_app.
Qed.

Lemma endswith_split (s suffix : string) :
  PyText.endswith s suffix = true <-> exists stem, s = stem +:+ suffix.
Proof.
  split.
  - induction s as [|a s IH]; cbn [PyText.endswith]; intros H.
    + rewrite orb_false_r in H. apply String.eqb_eq in H. subst.
      exists "". reflexivity.
    + apply orb_true_iff in H as [H|H].
      * apply String.eqb_eq in H. exists "". rewrite <- H. reflexivity.
      * destruct (IH H) as [stem ->]. exists (String a stem). reflexivity.
  - intros [stem ->]. induction stem as [|a stem IH].
    + change ("" +:+ suffix) with suffix.
      destruct suffix; cbn [PyText.endswith]; rewrite String.eqb_refl;
        reflexivity.
    + change (String a stem +:+ suffix) with (String a (stem +:+ suffix)).
      cbn [PyText.endswith]. rewrite IH. apply orb_true_r.
Qed.

(** X18: with the exclude prefix left empty, which is the default of the
    [-exclude] option, every path starts with it, and
    [get_files_to_check] lists no file at all. *)
Theorem empty_exclude_lists_nothing directory paths :
  get_files_to_check "" directory paths = [].
Proof.
  unfold get_files_to_check. induction paths as [|p paths IH]; [reflexivity|].
  rewrite filter_cons_False; [exact IH|].
  assert (Hs : PyText.startswith_any p [""; directory +:+ "/build"] = true).
  { unfold PyText.startswith_any, Py.startswith. cbn [existsb].
    destruct p; reflexivity. }
  rewrite Hs, andb_false_r. exact id.
Qed.

(** X19: a path is listed exactly when it is one of the paths found, ends
    with one of the seven supported extensions, and starts neither with
    the exclude prefix nor with the text [directory/build]; the latter is
    a comparison of text, so that [directory/build_tools/a.cpp] is left
    out as well. *)
Theorem listed_files exclude directory paths p :
  p ∈ get_files_to_check exclude directory paths
  <-> p ∈ paths
      /\ (exists stem ext, ext ∈ supported_extensions /\ p = stem +:+ ext)
      /\ (forall rest, p <> exclude +:+ rest)
      /\ (forall rest, p <> directory +:+ "/build" +:+ rest).
Proof.
  unfold get_files_to_check. rewrite list_elem_of_filter.
  rewrite andb_True, negb_True.
  unfold PyText.endswith_any, PyText.startswith_any, Py.startswith.
  rewrite !Is_true_true, existsb_exists.
  split.
  - intros [[[ext [Hin He]] Hno] Hp]. split; [exact Hp|].
    apply endswith_split in He as [stem ->]. split_and!.
    + exists stem, ext. split; [apply list_elem_of_In, Hin|reflexivity].
    + intros rest Hr. apply Hno. simpl. apply orb_true_iff. left.
      apply prefix_split. eauto.
    + intros rest Hr. apply Hno. simpl. apply orb_true_iff. right.
      apply orb_true_iff. left. apply prefix_split.
      exists rest. rewrite Hr, app_assoc_s. reflexivity.
  - intros (Hp & (stem & ext & Hin & ->) & Hex & Hbuild).
    split; [split|exact Hp].
    + exists ext. split; [apply list_elem_of_In, Hin|].
      apply endswith_split. eauto.
    + simpl. rewrite orb_false_r. intros H.
      apply orb_true_iff in H as [H|H]; apply prefix_split in H as [rest Hr].
      * exact (Hex rest Hr).
      * apply (Hbuild rest). rewrite Hr, app_assoc_s. reflexivity.
Qed.

End Files.

(** ** Console mode as a whole *)

Section Console.

Context (cfg : Config) (fs : string -> file) {U : SaUtils}.

Lemma for_loop_console_items prefix changed tool_output st g items :
  console_items prefix tool_output = inr items ->
  exists st',
    for_loop cfg fs prefix changed true tool_output st g
    = (inr (Continue st'), g)
    /\ flush st'
       = foldl add_entry (list_of_issues st)
           (console_groups (per_issue_string st) items).
Proof.
  revert st items. induction tool_output as [|line rest IH];
    intros st items H.
  - inversion H; subst. exists st. split; reflexivity.
  - simpl in H. simpl for_loop. unfold bind at 1. unfold loop_body.
    destruct (Py.startswith line prefix && negb (is_excluded_dir line)).
    + destruct (extract_info line prefix)
        as [e|[[[[file_path is_note] a] b] description]]; [discriminate|].
      destruct (console_items prefix rest) as [e|items'] eqn:Hi;
        [discriminate|].
      inversion H; subst. unfold bind, lift, ret. simpl.
      destruct is_note; simpl.
      * destruct (IH {| list_of_issues := list_of_issues st;
                        per_issue_string := per_issue_string st +:+ line;
                        was_note := was_note st |} items' eq_refl)
          as (st' & Hl & Hf).
        exists st'. split; [exact Hl|exact Hf].
      * destruct (IH {| list_of_issues :=
                          add_entry (list_of_issues st) (per_issue_string st);
                        per_issue_string := line;
                        was_note := was_note st |} items' eq_refl)
          as (st' & Hl & Hf).
        exists st'. split; [exact Hl|exact Hf].
    + simpl. exact (IH st items H).
Qed.

Lemma for_loop_console_error prefix changed tool_output st g e :
  console_items prefix tool_output = inl e ->
  for_loop cfg fs prefix changed true tool_output st g = (inl e, g).
Proof.
  revert st. induction tool_output as [|line rest IH]; intros st H;
    [discriminate|].
  simpl in H. simpl for_loop. unfold bind at 1. unfold loop_body.
  destruct (Py.startswith line prefix && negb (is_excluded_dir line)).
  - destruct (extract_info line prefix)
      as [e'|[[[[file_path is_note] a] b] description]].
    + inversion H; subst. reflexivity.
    + destruct (console_items prefix rest) as [e'|items'] eqn:Hi;
        [|discriminate].
      inversion H; subst. unfold bind, lift, ret. simpl.
      destruct (append_issue _ _ _ _). apply IH. reflexivity.
  - simpl. exact (IH st H).
Qed.

(** X20: in console mode the entries are the groups of the lines that are
    not skipped, each issue with the notes that follow it (and the notes
    before the first issue on their own), as raw text, in order, without
    the empty group and without a group equal to an earlier one; a line
    that does not parse makes the run raise instead. *)
Theorem console_entries_are_groups tool_output prefix changed g :
  finalized_issues cfg fs tool_output prefix changed true g
  = (match console_items prefix tool_output with
     | inl e => inl e
     | inr items => inr (foldl add_entry [] (console_groups "" items))
     end, g).
Proof.
  unfold finalized_issues, bind.
  destruct (console_items prefix tool_output) as [e|items] eqn:Hi.
  - rewrite (for_loop_console_error prefix changed _ initial g e Hi).
    reflexivity.
  - destruct (for_loop_console_items prefix changed _ initial g items Hi)
      as (st' & -> & Hf).
    unfold ret. rewrite Hf. reflexivity.
Qed.

End Console.

(** ** What [create_comment_for_output] hands on *)

Section Handover.

Context (cfg : Config) (fs : string -> file) {U : SaUtils}.

(** X21: the count that [create_comment_for_output] returns is never
    negative, and it is zero exactly when the text it returns is empty;
    so the tests on the counts and the tests on the texts in
    [prepare_comment_body] and in the main program agree. *)
Theorem count_zero_iff_no_text tool_output prefix changed console g comment
    count g' :
  create_comment_for_output cfg fs tool_output prefix changed console g
    = (inr (comment, count), g') ->
  0 <= count /\ (comment = "" <-> count = 0).
Proof. apply create_comment_for_output_shape. Qed.

End Handover.

(** * Executions of the further properties *)

Lemma extract_info_relative_path_witness :
  Py.startswith "a.cc" "/" = false /\ Py.find ":" "a.cc" = None.
Proof.
  apply (extract_info_relative_path (U := Demo.utils)
           "/w//a.cc:1:5: error: x" "/w" "a.cc" false 1 2 "error: x").
  reflexivity.
Defined.

Lemma malformed_line_aborts_run_witness :
  create_comment_for_output (U := Demo.utils) (Demo.cfg 1000) Demo.fs
    (["/w/a.cc:1:5: error: first"] ++ "/w/no location" :: ["/w/a.cc:2:5: error: second"])
    "/w" ∅ true Demo.fresh
  = (inl Py.ValueError, Demo.fresh).
Proof.
  eapply (malformed_line_aborts_run (Demo.cfg 1000) Demo.fs (U := Demo.utils)
            "/w" ∅ true ["/w/a.cc:1:5: error: first"] "/w/no location"
            ["/w/a.cc:2:5: error: second"] _ Demo.fresh Demo.fresh
            Py.ValueError);
    vm_compute; reflexivity.
Defined.

Lemma excerpt_lines_witness :
  generate_output (Demo.cfg_fork 1000) Demo.fs false "a.cc" 1 3 "error: first"
    Demo.warm
  = (inr (nl +:+ nl +:+ "------" +:+ nl +:+ nl
          +:+ " <b><i>Issue found in file</b></i> [fork/app/a.cc]"
          +:+ "(https://github.com/fork/app/blob/abc/a.cc#L1)" +:+ nl
          +:+ "```cpp" +:+ nl
          +:+ "int f(int x, <---- HERE" +:+ nl
          +:+ "      int y);" +:+ nl
          +:+ nl +:+ "``` " +:+ nl
          +:+ "error: first <br>" +:+ nl), Demo.warm).
Proof.
  destruct (excerpt_lines (Demo.cfg_fork 1000) Demo.fs "a.cc" 1 3
              "error: first" Demo.warm
              ["int f(int x," +:+ nl; "      int y);" +:+ nl])
    as (first & Hfirst & ->).
  - discriminate.
  - vm_compute. reflexivity.
  - lia.
  - lia.
  - simpl. lia.
  - inversion Hfirst; subst first. vm_compute. reflexivity.
Defined.

Lemma excerpt_out_of_range_witness :
  generate_output (Demo.cfg_fork 1000) Demo.fs false "a.cc" 3 5 "error: far"
    Demo.warm
  = (inl Py.IndexError, Demo.warm).
Proof.
  apply (excerpt_out_of_range (Demo.cfg_fork 1000) Demo.fs "a.cc" 3 5
           "error: far" Demo.warm
           ["int f(int x," +:+ nl; "      int y);" +:+ nl]).
  - discriminate.
  - vm_compute. reflexivity.
  - lia.
  - lia.
  - right. simpl. lia.
Defined.

Lemma cache_kept_over_run_witness :
  let g' :=
    snd (create_comment_for_output (U := Demo.utils) (Demo.cfg_fork 1000)
           Demo.fs ["/w/a.cc:1:5: error: first"] "/w" ∅ false Demo.warm) in
  cache_ok Demo.fs g'
  /\ forall path lines,
       FILES_WITH_ISSUES Demo.warm !! path = Some lines ->
       FILES_WITH_ISSUES g' !! path = Some lines.
Proof.
  apply (cache_kept_over_run (Demo.cfg_fork 1000) Demo.fs (U := Demo.utils)
           ["/w/a.cc:1:5: error: first"] "/w" ∅ false Demo.warm).
  exact warm_cache_ok.
Defined.



Lemma run_without_files_witness :
  let r :=
    create_comment_for_output (U := Demo.utils) (Demo.cfg 1000) Demo.fs
      ["/w/a.cc:1:5: error: first"] "/w" ∅ false Demo.fresh in
  FILES_WITH_ISSUES (snd r) = FILES_WITH_ISSUES Demo.fresh
  /\ forall e, fst r = inl e -> e = Py.ValueError.
Proof.
  apply (run_without_files (Demo.cfg 1000) Demo.fs (U := Demo.utils)).
  left. reflexivity.
Defined.

Lemma finalized_entries_stay_witness :
  ["/w/a.cc:1:5: error: first"]
  `prefix_of` ["/w/a.cc:1:5: error: first"; "/w/a.cc:2:5: error: second";
               "/w/a.cc:3:5: error: third"].
Proof.
  eapply (finalized_entries_stay (Demo.cfg 1000) Demo.fs (U := Demo.utils)
            "/w" ∅ true
            ["/w/a.cc:1:5: error: first"; "/w/a.cc:2:5: error: second"]
            ["/w/a.cc:3:5: error: third"]
            {| list_of_issues := ["/w/a.cc:1:5: error: first"];
               per_issue_string := "/w/a.cc:2:5: error: second";
               was_note := false |}
            Demo.fresh Demo.fresh _ Demo.fresh);
    vm_compute; reflexivity.
Defined.

Lemma length_at_maximum_iff_cut_short_witness :
  CURRENT_COMMENT_LENGTH (set_length 10 Demo.fresh)
  = COMMENT_MAX_SIZE (Demo.cfg 10)
  <-> CURRENT_COMMENT_LENGTH Demo.fresh = COMMENT_MAX_SIZE (Demo.cfg 10)
      \/ exists issues, Return [] = Return issues.
Proof.
  apply (length_at_maximum_iff_cut_short (Demo.cfg 10) Demo.fs
           (U := Demo.utils) "/w" ∅ false ["/w/a.cc:1:5: error: first"]
           initial Demo.fresh (Return []) (set_length 10 Demo.fresh)).
  - simpl. lia.
  - vm_compute. reflexivity.
Defined.

Lemma demo_run_trims : trims (U := DemoRun.utils).
Proof. intros is_note was_note a d s. simpl. lia. Qed.

Lemma both_tools_share_budget_witness :
  exists c1 c2 n1 n2 g',
    read_files_and_parse_results (U := DemoRun.utils) (E := DemoRun.env)
      (Demo.cfg 1000) DemoRun.fs DemoRun.args Demo.fresh
    = (inr (c1, c2, n1, n2, false), g')
    /\ n1 = 1 /\ n2 = 1
    /\ Py.len c1 + Py.len c2 <= 1000 - 0 + n1 + n2.
Proof.
  eexists _, _, _, _, _. split; [vm_compute; reflexivity|].
  split; [reflexivity|]. split; [reflexivity|].
  edestruct (both_tools_share_budget (Demo.cfg 1000) DemoRun.fs
               (U := DemoRun.utils) (E := DemoRun.env) DemoRun.args
               Demo.fresh) as (l1 & l2 & _ & _ & _ & Hlen).
  - exact demo_run_trims.
  - simpl. lia.
  - discriminate.
  - vm_compute. reflexivity.
  - exact Hlen.
Defined.

Lemma second_post_edits_first_witness :
  exists i c,
    comments (create_or_edit_comment (Demo.cfg 1000)
                "## Static analysis result: first" DemoRun.pr) !! i = Some c
    /\ body c = "## Static analysis result: first"
    /\ comments (create_or_edit_comment (Demo.cfg 1000)
                   "## Static analysis result: second"
                   (create_or_edit_comment (Demo.cfg 1000)
                      "## Static analysis result: first" DemoRun.pr))
       = <[i := {| comment_id := comment_id c; login := login c;
                   body := "## Static analysis result: second" |}]>
           (comments (create_or_edit_comment (Demo.cfg 1000)
                        "## Static analysis result: first" DemoRun.pr)).
Proof.
  apply (second_post_edits_first (Demo.cfg 1000)
           "## Static analysis result: first"
           "## Static analysis result: second" DemoRun.pr).
  - reflexivity.
  - discriminate.
  - repeat constructor; discriminate.
  - reflexivity.
Defined.

Lemma other_comments_untouched_witness :
  exists c',
    comments (create_or_edit_comment (Demo.cfg 1000)
                "## Static analysis result: first" DemoRun.pr) !! 0%nat
    = Some c'
    /\ comment_id c' = 7
    /\ login c' = "alice"
    /\ (body c' = "LGTM"
        \/ ("alice" = "github-actions[bot]"
            /\ PyText.contains (COMMENT_TITLE (Demo.cfg 1000)) "LGTM" = true)).
Proof.
  apply (other_comments_untouched (Demo.cfg 1000)
           "## Static analysis result: first" DemoRun.pr 0%nat
           {| comment_id := 7; login := "alice"; body := "LGTM" |}).
  reflexivity.
Defined.

Lemma exit_status_and_comment_witness :
  exists pr' g',
    main (U := DemoRun.utils) (E := DemoRun.env) (Demo.cfg 1000) DemoRun.fs
      DemoRun.args DemoRun.pr Demo.fresh
    = (inr (2, pr'), g')
    /\ length (comments pr') = 2%nat
    /\ 0 <= 2.
Proof.
  eexists _, _. split; [vm_compute; reflexivity|].
  split; [reflexivity|].
  edestruct (exit_status_and_comment (Demo.cfg 1000) DemoRun.fs
               (U := DemoRun.utils) (E := DemoRun.env) DemoRun.args
               DemoRun.pr Demo.fresh 2) as [Hstatus _].
  - vm_compute. reflexivity.
  - exact Hstatus.
Defined.

Lemma count_zero_iff_no_text_witness :
  0 <= 1 /\ ("/w/a.cc:1:5: error: first" = "" <-> 1 = 0).
Proof.
  eapply (count_zero_iff_no_text (Demo.cfg 1000) Demo.fs (U := Demo.utils)
            ["/w/a.cc:1:5: error: first"] "/w" ∅ true Demo.fresh).
  vm_compute. reflexivity.
Defined.

(** The script on a small tree: the default empty exclude prefix against
    an exclude prefix that is given. *)
Example get_files_to_check_ex :
  get_files_to_check "" "/repo"
    ["/repo/src/a.cpp"; "/repo/src/a.h"; "/repo/README.md"] = []
  /\ get_files_to_check "/repo/third_party" "/repo"
       ["/repo/src/a.cpp"; "/repo/src/a.h"; "/repo/README.md";
        "/repo/build/gen.cc"; "/repo/build_tools/b.cpp";
        "/repo/third_party/z.c"; "/repo/src/a.cpp.orig"]
     = ["/repo/src/a.cpp"; "/repo/src/a.h"].
Proof. split; vm_compute; reflexivity. Qed.

(** The whole program on the concrete run: the body posted and the value
    handed to [sys.exit]. *)
Example main_ex :
  exists pr' g',
    main (U := DemoRun.utils) (E := DemoRun.env) (Demo.cfg 1000) DemoRun.fs
      DemoRun.args DemoRun.pr Demo.fresh
    = (inr (2, pr'), g')
    /\ (login <$> comments pr') = ["alice"; "github-actions[bot]"]
    /\ CURRENT_COMMENT_LENGTH g' = 157.
Proof. eexists _, _. vm_compute. repeat split; reflexivity. Qed.
